(** * The DBF attribute-table reader of places-of-worship

    The repository reads the [.dbf] sidecar of a shapefile with a hand
    written reader, [read_dbf], that exists twice: in
    [scripts/create_simplified_ta_geojson.py] and in
    [scripts/generate_complete_ta_data.py].  This development embeds both
    copies, together with the Python built-ins they call, and establishes
    what the reader does on well-formed tables, on truncated files and on
    short headers. *)

From Stdlib Require Import ZArith Lia.
From Stdlib Require SpecFloat.
From Stdlib.Strings Require Import Byte.
From stdpp Require Import base option list gmap strings.

Local Open Scope Z_scope.

(** ** Python values and exceptions *)

(** The exceptions [read_dbf] can let escape: [struct.error] from
    [struct.unpack], [IndexError] from indexing a [bytes] object,
    [UnicodeDecodeError] from a strict [decode], and [FileNotFoundError]
    from [open]. *)
Inductive exn : Set :=
  | StructError
  | IndexError
  | UnicodeDecodeError
  | FileNotFoundError.

(** What a call does: it returns a value, it raises, or the loop budget of
    the embedding ran out (shown below never to happen for [read_dbf]). *)
Inductive outcome (A : Type) : Type :=
  | Returns (a : A)
  | Raises (e : exn)
  | OutOfFuel.

Arguments Returns {A} a.
Arguments Raises {A} e.
Arguments OutOfFuel {A}.

(** A Python [str] is a sequence of code points. *)
Abbreviation pystr := (list N).

(** A Python [float]: an IEEE 754 binary64 number, that is a signed zero,
    an infinity, the NaN, or [(-1)^s * m * 2^e] with a mantissa of at most
    53 bits. *)
Abbreviation pyfloat := SpecFloat.spec_float.

(** The values stored in a record dictionary. *)
Inductive pyval : Set :=
  | VStr (s : pystr)
  | VInt (z : Z)
  | VFloat (x : pyfloat).

(** ** Built-ins on [bytes] and [str] *)

Module Py.

Definition ord (b : byte) : Z := Z.of_N (Byte.to_N b).

(** [b[i:j]] for [0 <= i] and [0 <= j]. *)
Definition slice {A} (b : list A) (i j : nat) : list A := take (j - i) (drop i b).

Fixpoint lstrip {A} (p : A -> bool) (s : list A) : list A :=
  match s with
  | [] => []
  | c :: r => if p c then lstrip p r else s
  end.

Definition rstrip {A} (p : A -> bool) (s : list A) : list A :=
  reverse (lstrip p (reverse s)).

Definition strip {A} (p : A -> bool) (s : list A) : list A :=
  rstrip p (lstrip p s).

(** [Py_ISSPACE]: the bytes removed by [bytes.strip()]. *)
Definition is_space (b : byte) : bool :=
  let c := ord b in ((9 <=? c) && (c <=? 13)) || (c =? 32).

Definition is_nul (b : byte) : bool := Byte.eqb b x00.

(** [Py_UNICODE_ISSPACE]: the code points removed by [str.strip()]. *)
Definition is_uspace (c : N) : bool :=
  let c := Z.of_N c in
  ((9 <=? c) && (c <=? 13)) || ((28 <=? c) && (c <=? 32))
  || (c =? 133) || (c =? 160) || (c =? 5760)
  || ((8192 <=? c) && (c <=? 8202))
  || (c =? 8232) || (c =? 8233) || (c =? 8239) || (c =? 8287)
  || (c =? 12288).

Definition bytes_strip : list byte -> list byte := strip is_space.
Definition str_strip : pystr -> pystr := strip is_uspace.

(** [b'.' in value] *)
Definition contains (c : byte) (s : list byte) : bool := existsb (Byte.eqb c) s.

(** *** [struct.unpack] of one little-endian unsigned integer *)

Fixpoint le_uint (bs : list byte) : Z :=
  match bs with
  | [] => 0
  | b :: r => ord b + 256 * le_uint r
  end.

(** [struct.unpack('<I', b)[0]] with [size = 4], [struct.unpack('<H', b)[0]]
    with [size = 2]: the buffer must have exactly [size] bytes. *)
Definition unpack_le (size : nat) (bs : list byte) : outcome Z :=
  if Nat.eqb (length bs) size then Returns (le_uint bs) else Raises StructError.

(** *** UTF-8 decoding *)

Definition is_cont (b : byte) : bool := let c := ord b in (128 <=? c) && (c <? 192).

Definition cp2 (c0 c1 : Z) : N := Z.to_N ((c0 - 192) * 64 + (c1 - 128)).
Definition cp3 (c0 c1 c2 : Z) : N :=
  Z.to_N ((c0 - 224) * 4096 + (c1 - 128) * 64 + (c2 - 128)).
Definition cp4 (c0 c1 c2 c3 : Z) : N :=
  Z.to_N ((c0 - 240) * 262144 + (c1 - 128) * 4096 + (c2 - 128) * 64 + (c3 - 128)).

(** [bs.decode('utf-8')] when [ignore = false] and
    [bs.decode('utf-8', errors='ignore')] when [ignore = true]; [None] stands
    for [UnicodeDecodeError].  As in CPython an ill-formed sequence is given
    up at its first offending byte, and decoding resumes there; a sequence
    cut off by the end of the input is dropped whole. *)
Fixpoint utf8_decode (ignore : bool) (bs : list byte) : option pystr :=
  match bs with
  | [] => Some []
  | b0 :: r0 =>
    let c0 := ord b0 in
    let bad (resume : option pystr) := if ignore then resume else None in
    if c0 <? 128 then cons (Z.to_N c0) <$> utf8_decode ignore r0
    else if c0 <? 194 then bad (utf8_decode ignore r0)
    else if c0 <? 224 then
      match r0 with
      | [] => bad (Some [])
      | b1 :: r1 =>
        if is_cont b1 then cons (cp2 c0 (ord b1)) <$> utf8_decode ignore r1
        else bad (utf8_decode ignore r0)
      end
    else if c0 <? 240 then
      match r0 with
      | [] => bad (Some [])
      | b1 :: r1 =>
        let c1 := ord b1 in
        if negb (is_cont b1) || (if c1 <? 160 then c0 =? 224 else c0 =? 237)
        then bad (utf8_decode ignore r0)
        else match r1 with
             | [] => bad (Some [])
             | b2 :: r2 =>
               if is_cont b2 then cons (cp3 c0 c1 (ord b2)) <$> utf8_decode ignore r2
               else bad (utf8_decode ignore r1)
             end
      end
    else if c0 <? 245 then
      match r0 with
      | [] => bad (Some [])
      | b1 :: r1 =>
        let c1 := ord b1 in
        if negb (is_cont b1) || (if c1 <? 144 then c0 =? 240 else c0 =? 244)
        then bad (utf8_decode ignore r0)
        else match r1 with
             | [] => bad (Some [])
             | b2 :: r2 =>
               if negb (is_cont b2) then bad (utf8_decode ignore r1)
               else match r2 with
                    | [] => bad (Some [])
                    | b3 :: r3 =>
                      if is_cont b3
                      then cons (cp4 c0 c1 (ord b2) (ord b3)) <$> utf8_decode ignore r3
                      else bad (utf8_decode ignore r2)
                    end
             end
      end
    else bad (utf8_decode ignore r0)
  end.

(** [bs.decode('utf-8', errors='ignore')] never raises. *)
Definition decode_ignore (bs : list byte) : pystr := default [] (utf8_decode true bs).

(** *** [int(b)] and [float(b)] for a [bytes] argument *)

Definition digit (b : byte) : option Z :=
  let c := ord b in if (48 <=? c) && (c <=? 57) then Some (c - 48) else None.

Definition is_digit (b : byte) : bool := let c := ord b in (48 <=? c) && (c <=? 57).

(** The digit scan of [PyLong_FromString] in base 10: single underscores
    between digits are skipped, a doubled or trailing one is an error. *)
Fixpoint int_digits (after_underscore : bool) (acc : Z) (s : list byte) : option Z :=
  match s with
  | [] => if after_underscore then None else Some acc
  | b :: r =>
    if Byte.eqb b "_"%byte then (if after_underscore then None else int_digits true acc r)
    else match digit b with
         | Some d => int_digits false (10 * acc + d) r
         | None => None
         end
  end.

(** An optional leading [+] or [-]. *)
Definition split_sign (s : list byte) : bool * list byte :=
  match s with
  | c :: r => if Byte.eqb c "+"%byte then (false, r)
              else if Byte.eqb c "-"%byte then (true, r) else (false, s)
  | [] => (false, s)
  end.

(** [int(b)]: [None] stands for [ValueError]. *)
Definition int (b : list byte) : option Z :=
  let s := bytes_strip b in
  let '(negative, body) := split_sign s in
  match body with
  | [] => None
  | c :: _ =>
    if Byte.eqb c "_"%byte then None
    else (fun z => if negative then - z else z) <$> int_digits false 0 body
  end.

(** Underscore check of [_Py_string_to_number_with_underscores]: an
    underscore must stand between two digits; the result is the text
    without them.  [prev] is the byte before, [None] at the start. *)
Fixpoint drop_underscores (prev : option byte) (s : list byte) : option (list byte) :=
  match s with
  | [] => if from_option (Byte.eqb "_"%byte) false prev then None else Some []
  | c :: r =>
    if Byte.eqb c "_"%byte then
      (if from_option is_digit false prev then drop_underscores (Some c) r else None)
    else if from_option (Byte.eqb "_"%byte) false prev && negb (is_digit c) then None
    else cons c <$> drop_underscores (Some c) r
  end.

Definition lower (b : byte) : Z :=
  let c := ord b in if (65 <=? c) && (c <=? 90) then c + 32 else c.

(** The exponent of a [strtod] literal, [e|E [+|-] digits], or nothing. *)
Definition is_exponent (s : list byte) : bool :=
  match s with
  | [] => true
  | e :: r =>
    (Byte.eqb e "e"%byte || Byte.eqb e "E"%byte) &&
    let ds := match r with
              | c :: r' => if Byte.eqb c "+"%byte || Byte.eqb c "-"%byte then r' else r
              | [] => r
              end in
    (0 <? length ds)%nat && forallb is_digit ds
  end.

(** The unsigned decimal grammar of [strtod]: [digits [. [digits]]] or
    [. digits], then the exponent, and nothing after it. *)
Definition is_decimal (s : list byte) : bool :=
  let r1 := lstrip is_digit s in
  let n1 := (length s - length r1)%nat in
  match r1 with
  | c :: r2 =>
    if Byte.eqb c "."%byte then
      let r3 := lstrip is_digit r2 in
      (0 <? n1 + (length r2 - length r3))%nat && is_exponent r3
    else (0 <? n1)%nat && is_exponent r1
  | [] => (0 <? n1)%nat
  end.

(** The number a digit string denotes in base 10. *)
Definition digits_value (ds : list byte) : Z :=
  fold_left (λ a c, 10 * a + (ord c - 48)) ds 0.

(** The digits a text starts with. *)
Definition leading_digits (s : list byte) : list byte :=
  take (length s - length (lstrip is_digit s)) s.

(** The decimal number [m * 10^e] that a literal of the grammar above
    denotes: [m] is read off the digits before and after the point, [e] is
    the exponent less the number of digits after the point. *)
Definition decimal_parts (s : list byte) : Z * Z :=
  let ds1 := leading_digits s in
  let r1 := lstrip is_digit s in
  let '(ds2, r3) :=
    match r1 with
    | c :: r2 => if Byte.eqb c "."%byte
                 then (leading_digits r2, lstrip is_digit r2) else ([], r1)
    | [] => ([], r1)
    end in
  let exponent :=
    match r3 with
    | _ :: r => let '(negative, ds) := split_sign r in
                if negative then - digits_value ds else digits_value ds
    | [] => 0
    end in
  (digits_value (ds1 ++ ds2), exponent - Z.of_nat (length ds2)).

(** The binary64 number nearest to [(-1)^negative * m * 10^e], ties to
    even, as [strtod] returns it: the correctly rounded quotient of the
    integers [m * 10^e] and 1, or [m] and [10^(-e)]; an infinity when the
    number is too large, a signed zero when [m] is 0 or the number too
    small. *)
Definition binary64 (negative : bool) (m e : Z) : pyfloat :=
  match m with
  | Zpos _ =>
    SpecFloat.SFdiv 53 1024
      (SpecFloat.S754_finite negative (Z.to_pos (m * 10 ^ Z.max e 0)) 0)
      (SpecFloat.S754_finite false (Z.to_pos (10 ^ Z.max (- e) 0)) 0)
  | _ => SpecFloat.S754_zero negative
  end.

(** [float(b)]: [None] stands for [ValueError]. *)
Definition float (b : list byte) : option pyfloat :=
  s ← drop_underscores None (bytes_strip b);
  let '(negative, body) := split_sign s in
  let low := lower <$> body in
  if bool_decide (low = [105; 110; 102]) then Some (SpecFloat.S754_infinity negative)
  else if bool_decide (low = [105; 110; 102; 105; 110; 105; 116; 121])
  then Some (SpecFloat.S754_infinity negative)
  else if bool_decide (low = [110; 97; 110]) then Some SpecFloat.S754_nan
  else if is_decimal body
  then Some (let '(m, e) := decimal_parts body in binary64 negative m e)
  else None.

End Py.

(** ** The file object *)

(** A binary file opened for reading: its bytes and the cursor that
    [read], [seek] and [tell] share. *)
Record file : Type := File { content : list byte; pos : nat }.

(** Code inside [with open(filename, 'rb') as f:] runs against the file
    object and may raise. *)
Definition M (A : Type) : Type := file -> outcome (A * file).

Definition ret {A} (a : A) : M A := fun f => Returns (a, f).

Definition bind {A B} (m : M A) (k : A -> M B) : M B :=
  fun f => match m f with
           | Returns (a, f') => k a f'
           | Raises e => Raises e
           | OutOfFuel => OutOfFuel
           end.

Definition raise {A} (e : exn) : M A := fun _ => Raises e.
Definition out_of_fuel {A} : M A := fun _ => OutOfFuel.

Notation "'let*' x := m 'in' k" := (bind m (fun x => k))
  (at level 10, x name, m at level 100, k at level 200).

(** [f.read(n)]: up to [n] bytes from the cursor, fewer at the end of the
    file, none beyond it; the cursor moves past what was read. *)
Definition read (n : nat) : M (list byte) :=
  fun f => let data := take n (drop (pos f) (content f)) in
           Returns (data, File (content f) (pos f + length data)).

(** [f.seek(p)]: any offset is accepted, also one past the end. *)
Definition seek (p : nat) : M unit := fun f => Returns (tt, File (content f) p).

(** [f.tell()] *)
Definition tell : M nat := fun f => Returns (pos f, f).

(** [data[i]] on a [bytes] object, as an integer. *)
Definition index (data : list byte) (i : nat) : M byte :=
  match data !! i with
  | Some c => ret c
  | None => raise IndexError
  end.

(** [struct.unpack(fmt, data)[0]] *)
Definition unpack (size : nat) (data : list byte) : M Z :=
  fun f => match Py.unpack_le size data with
           | Returns z => Returns (z, f)
           | Raises e => Raises e
           | OutOfFuel => OutOfFuel
           end.

(** [data.decode('utf-8')] *)
Definition decode (data : list byte) : M pystr :=
  match Py.utf8_decode false data with
  | Some s => ret s
  | None => raise UnicodeDecodeError
  end.

(** The files [open] can see, by name. *)
Abbreviation filesystem := (gmap string (list byte)).

(** [with open(filename, 'rb') as f: body]: the file object lives for the
    block only, and only the value of the block leaves it. *)
Definition with_open {A} (fs : filesystem) (filename : string) (body : M A) : outcome A :=
  match fs !! filename with
  | None => Raises FileNotFoundError
  | Some bytes =>
    match body (File bytes 0) with
    | Returns (a, _) => Returns a
    | Raises e => Raises e
    | OutOfFuel => OutOfFuel
    end
  end.

(** ** The data model *)

(** A field descriptor as the reader keeps it: the tuple
    [(name, field_type, field_len)]. *)
Record field : Type := Field { name : pystr; field_type : byte; field_len : nat }.

(** A record: the dictionary [record_data], from field name to value. *)
Abbreviation dict := (gmap pystr pyval).

(** ** [read_dbf] of [scripts/create_simplified_ta_geojson.py] *)

Module create_simplified_ta_geojson.

(** The loop [while f.tell() < header_len - 1:] over the field
    descriptors; [fuel] bounds the number of iterations. *)
Fixpoint while_fields (fuel : nat) (header_len : Z) (fields : list field) : M (list field) :=
  match fuel with
  | O => out_of_fuel
  | S fuel' =>
    let* p := tell in
    if Z.of_nat p <? header_len - 1 then
      let* field_data := read 32 in
      let* c := index field_data 0 in
      if Byte.eqb c x0d then ret fields
      else
        let* name := decode (Py.strip Py.is_nul (take 11 field_data)) in
        let* field_type := index field_data 11 in
        let* field_len := index field_data 16 in
        while_fields fuel' header_len
          (fields ++ [Field name field_type (Z.to_nat (Py.ord field_len))])
    else ret fields
  end.

(** The loop [for name, field_type, field_len in fields:] over one record,
    with its two variables [offset] and [record_data]. *)
Fixpoint for_fields (fields : list field) (record : list byte)
    (offset : nat) (record_data : dict) : nat * dict :=
  match fields with
  | [] => (offset, record_data)
  | Field name field_type field_len :: fields' =>
    let value := Py.bytes_strip (Py.slice record offset (offset + field_len)) in
    let record_data :=
      if Byte.eqb field_type "C" then
        <[name := VStr (Py.str_strip (Py.decode_ignore value))]> record_data
      else if Byte.eqb field_type "N" then
        match (if Py.contains "." value
               then VFloat <$> Py.float value
               else VInt <$> Py.int value) with
        | Some v => <[name := v]> record_data
        | None => <[name := VInt 0]> record_data
        end
      else record_data in
    for_fields fields' record (offset + field_len) record_data
  end.

(** The loop [for i in range(num_records):] with [n] iterations to go. *)
Fixpoint for_records (n record_len : nat) (fields : list field)
    (records : list dict) : M (list dict) :=
  match n with
  | O => ret records
  | S n' =>
    let* record := read record_len in
    let* c := index record 0 in
    if Byte.eqb c x2a then for_records n' record_len fields records
    else
      let record_data := (for_fields fields record 1 ∅).2 in
      for_records n' record_len fields (records ++ [record_data])
  end.

Definition read_dbf (fs : filesystem) (filename : string) : outcome (list dict) :=
  with_open fs filename (
    let* header := read 32 in
    let* num_records := unpack 4 (Py.slice header 4 8) in
    let* header_len := unpack 2 (Py.slice header 8 10) in
    let* record_len := unpack 2 (Py.slice header 10 12) in
    let* _ := seek 32 in
    let* fields := while_fields (S (Z.to_nat header_len)) header_len [] in
    let* _ := seek (Z.to_nat header_len) in
    for_records (Z.to_nat num_records) (Z.to_nat record_len) fields []).

End create_simplified_ta_geojson.

(** ** [read_dbf] of [scripts/generate_complete_ta_data.py] *)

Module generate_complete_ta_data.

(** The loop [while f.tell() < header_len - 1:] over the field
    descriptors; [fuel] bounds the number of iterations. *)
Fixpoint while_fields (fuel : nat) (header_len : Z) (fields : list field) : M (list field) :=
  match fuel with
  | O => out_of_fuel
  | S fuel' =>
    let* p := tell in
    if Z.of_nat p <? header_len - 1 then
      let* field_data := read 32 in
      let* c := index field_data 0 in
      if Byte.eqb c x0d then ret fields
      else
        let* name := decode (Py.strip Py.is_nul (take 11 field_data)) in
        let* field_type := index field_data 11 in
        let* field_len := index field_data 16 in
        while_fields fuel' header_len
          (fields ++ [Field name field_type (Z.to_nat (Py.ord field_len))])
    else ret fields
  end.

(** The loop [for name, field_type, field_len in fields:] over one record,
    with its two variables [offset] and [record_data]. *)
Fixpoint for_fields (fields : list field) (record : list byte)
    (offset : nat) (record_data : dict) : nat * dict :=
  match fields with
  | [] => (offset, record_data)
  | Field name field_type field_len :: fields' =>
    let value := Py.bytes_strip (Py.slice record offset (offset + field_len)) in
    let record_data :=
      if Byte.eqb field_type "C" then
        <[name := VStr (Py.str_strip (Py.decode_ignore value))]> record_data
      else if Byte.eqb field_type "N" then
        match (if Py.contains "." value
               then VFloat <$> Py.float value
               else VInt <$> Py.int value) with
        | Some v => <[name := v]> record_data
        | None => <[name := VInt 0]> record_data
        end
      else record_data in
    for_fields fields' record (offset + field_len) record_data
  end.

(** The loop [for i in range(num_records):] with [n] iterations to go. *)
Fixpoint for_records (n record_len : nat) (fields : list field)
    (records : list dict) : M (list dict) :=
  match n with
  | O => ret records
  | S n' =>
    let* record := read record_len in
    let* c := index record 0 in
    if Byte.eqb c x2a then for_records n' record_len fields records
    else
      let record_data := (for_fields fields record 1 ∅).2 in
      for_records n' record_len fields (records ++ [record_data])
  end.

Definition read_dbf (fs : filesystem) (filename : string) : outcome (list dict) :=
  with_open fs filename (
    let* header := read 32 in
    let* num_records := unpack 4 (Py.slice header 4 8) in
    let* header_len := unpack 2 (Py.slice header 8 10) in
    let* record_len := unpack 2 (Py.slice header 10 12) in
    let* _ := seek 32 in
    let* fields := while_fields (S (Z.to_nat header_len)) header_len [] in
    let* _ := seek (Z.to_nat header_len) in
    for_records (Z.to_nat num_records) (Z.to_nat record_len) fields []).

End generate_complete_ta_data.

(** The two copies of the reader. *)
Definition readers : list (filesystem -> string -> outcome (list dict)) :=
  [create_simplified_ta_geojson.read_dbf; generate_complete_ta_data.read_dbf].

(** ** Well-formed tables *)

(** The layout of a dBASE file: the 32-byte file header, the 32-byte field
    descriptors, the terminator [0x0D], the fixed-width records, and
    whatever follows them (usually the end-of-file mark [0x1A]). *)
Record table : Type := Table {
  hdr : list byte;
  descs : list (list byte);
  recs : list (list byte);
  trailer : list byte
}.

Definition table_bytes (t : table) : list byte :=
  hdr t ++ concat (descs t) ++ [x0d] ++ concat (recs t) ++ trailer t.

(** The three numbers of the file header, little-endian. *)
Definition hdr_num_records (h : list byte) : Z := Py.le_uint (Py.slice h 4 8).
Definition hdr_header_len (h : list byte) : Z := Py.le_uint (Py.slice h 8 10).
Definition hdr_record_len (h : list byte) : Z := Py.le_uint (Py.slice h 10 12).

(** The field a descriptor denotes: name in bytes 0..11, NUL-padded; type
    code in byte 11; length in byte 16. *)
Definition field_of (d : list byte) : option field :=
  name ← Py.utf8_decode false (Py.strip Py.is_nul (take 11 d));
  field_type ← d !! 11%nat;
  field_len ← d !! 16%nat;
  Some (Field name field_type (Z.to_nat (Py.ord field_len))).

Definition table_fields (t : table) : list field := omap field_of (descs t).

(** A descriptor is 32 bytes, does not start with the terminator, and its
    name is valid UTF-8. *)
Definition wf_desc (d : list byte) : Prop :=
  length d = 32%nat ∧ d !! 0%nat ≠ Some x0d ∧ is_Some (field_of d).

(** A record is soft-deleted when its first byte is [0x2A]. *)
Definition deleted (r : list byte) : bool :=
  match r with
  | c :: _ => Byte.eqb c x2a
  | [] => false
  end.

Definition live (rs : list (list byte)) : list (list byte) :=
  filter (λ r, ¬ deleted r) rs.

(** The header describes the layout: the record count, the header length
    (file header, descriptors, terminator), and the record length (deletion
    flag plus the field widths); field names are unique. *)
Record well_formed (t : table) : Prop := {
  wf_hdr : length (hdr t) = 32%nat;
  wf_num_records : hdr_num_records (hdr t) = Z.of_nat (length (recs t));
  wf_header_len : hdr_header_len (hdr t) = 33 + 32 * Z.of_nat (length (descs t));
  wf_record_len :
    hdr_record_len (hdr t) = Z.of_nat (1 + sum_list (field_len <$> table_fields t));
  wf_descs : Forall wf_desc (descs t);
  wf_names : NoDup (name <$> table_fields t);
  wf_recs : Forall (λ r, Z.of_nat (length r) = hdr_record_len (hdr t)) (recs t)
}.

(** What the reader makes of one field's bytes, by type code; [None] when
    it stores nothing for the field. *)
Definition numeric (value : list byte) : pyval :=
  if Py.contains "." value
  then match Py.float value with Some x => VFloat x | None => VInt 0 end
  else match Py.int value with Some z => VInt z | None => VInt 0 end.

Definition field_value (field_type : byte) (raw : list byte) : option pyval :=
  let value := Py.bytes_strip raw in
  if Byte.eqb field_type "C" then Some (VStr (Py.str_strip (Py.decode_ignore value)))
  else if Byte.eqb field_type "N" then Some (numeric value)
  else None.

(** The bytes a decimal literal is made of. *)
Definition decimal_byte (c : byte) : Prop :=
  Py.is_digit c = true \/ c ∈ ["."%byte; "e"%byte; "E"%byte; "+"%byte; "-"%byte].

(** The bytes that can stand in a text [int] or [float] accepts, other
    than the letters of [inf], [infinity] and [nan]: digits, blanks, the
    decimal point, the exponent letter, the signs and the underscore. *)
Definition number_byte (c : byte) : bool :=
  Py.is_digit c || Py.is_space c
  || existsb (Byte.eqb c) ["."%byte; "e"%byte; "E"%byte; "+"%byte; "-"%byte; "_"%byte].

(** The byte offset of field [i] inside a record. *)
Definition field_offset (fields : list field) (i : nat) : nat :=
  1 + sum_list (field_len <$> take i fields).

(** The reader the lemmas below are stated for; the other copy is shown
    equal to it. *)
Import create_simplified_ta_geojson.

(** The dictionary the reader builds from one record. *)
Definition row (fields : list field) (r : list byte) : dict :=
  (for_fields fields r 1 ∅).2.

(** What one iteration does to [record_data]. *)
Definition store (f : field) (raw : list byte) (d : dict) : dict :=
  match field_value (field_type f) raw with
  | Some v => <[name f := v]> d
  | None => d
  end.

(** The field loops of the two copies. *)
Definition field_loops : list (list field -> list byte -> nat -> dict -> nat * dict) :=
  [create_simplified_ta_geojson.for_fields; generate_complete_ta_data.for_fields].

(** The outcomes of the descriptor loop on a file with bytes [src]: it
    returns with the bytes untouched, or raises [IndexError] or
    [UnicodeDecodeError]. *)
Definition fields_outcome (src : list byte) (o : outcome (list field * file)) : Prop :=
  match o with
  | Returns (_, f') => content f' = src
  | Raises e => e = IndexError \/ e = UnicodeDecodeError
  | OutOfFuel => False
  end.

(** The outcomes of the record loop: it returns, or raises [IndexError]. *)
Definition records_outcome (o : outcome (list dict * file)) : Prop :=
  match o with
  | Returns _ => True
  | Raises e => e = IndexError
  | OutOfFuel => False
  end.

(** The record [r] with the [len] bytes at [off] replaced by [payload]. *)
Definition with_field (r : list byte) (off len : nat) (payload : list byte) : list byte :=
  take off r ++ payload ++ drop (off + len) r.

(** The table [t] with another record block. *)
Definition with_recs (t : table) (rs : list (list byte)) : table :=
  Table (hdr t) (descs t) rs (trailer t).

(** ** Hand-built tables *)

Definition bytes_of (s : string) : list byte := String.list_byte_of_string s.

(** The code points of an ASCII literal. *)
Definition text (s : string) : pystr := (λ c, Z.to_N (Py.ord c)) <$> bytes_of s.

Fixpoint le_bytes (size : nat) (z : Z) : list byte :=
  match size with
  | O => []
  | S size' => default x00 (Byte.of_N (Z.to_N (z mod 256))) :: le_bytes size' (z / 256)
  end.

(** A file header: version 3, a date, the three numbers, reserved bytes. *)
Definition make_hdr (num_records header_len record_len : Z) : list byte :=
  [x03; x7d; x0b; x04] ++ le_bytes 4 num_records ++ le_bytes 2 header_len
  ++ le_bytes 2 record_len ++ replicate 20 x00.

(** A field descriptor: the NUL-padded name, the type code, the length. *)
Definition make_desc (nm : string) (ty : byte) (len : Z) : list byte :=
  take 11 (bytes_of nm ++ replicate 11 x00) ++ [ty] ++ replicate 4 x00
  ++ le_bytes 1 len ++ replicate 15 x00.

Definition make_table (fields : list (string * byte * Z)) (rs : list (list byte)) : table :=
  let record_len := 1 + foldr (λ f acc, f.2 + acc) 0 fields in
  Table (make_hdr (Z.of_nat (length rs)) (33 + 32 * Z.of_nat (length fields)) record_len)
        ((λ f, make_desc f.1.1 f.1.2 f.2) <$> fields) rs [x1a].

(** The table of the end-to-end scenario: one Character field [NAME] of
    width 10, a live record and a deleted one. *)
Definition name_table : table :=
  make_table [("NAME", "C"%byte, 10)]
    [bytes_of " ABCDEFGHIJ"; bytes_of "*ZZZZZZZZZZ"].

(** The same table cut off inside its second record. *)
Definition cut_name_table_bytes : list byte :=
  take 81 (table_bytes (make_table [("NAME", "C"%byte, 10)]
                          [bytes_of " ABCDEFGHIJ"; bytes_of " KLMNOPQRST"])).

(** A table with a Date field between a Character and a Numeric field. *)
Definition born_table : table :=
  make_table [("NAME", "C"%byte, 4); ("BORN", "D"%byte, 8); ("AGE", "N"%byte, 3)]
    [bytes_of " Anna19840229 41"; bytes_of " Ben 20010911 2x"].

(** A Character field stored with leading blanks. *)
Definition padded_table : table :=
  make_table [("NAME", "C"%byte, 10)] [bytes_of "   ABCDEFGH"].

(** ** The GeoJSON script around the reader *)

(** Text of a source literal, given as its UTF-8 bytes. *)
Definition utf8 (s : string) : pystr := Py.decode_ignore (String.list_byte_of_string s).

(** A float literal of the source. *)
Definition lit (s : string) : pyfloat :=
  default SpecFloat.S754_nan (Py.float (String.list_byte_of_string s)).

(** [needle in hay] for two strings: [needle] occurs in [hay] as a
    contiguous run. *)
Fixpoint starts_with (needle hay : pystr) : bool :=
  match needle, hay with
  | [], _ => true
  | _ :: _, [] => false
  | c :: needle', h :: hay' => N.eqb c h && starts_with needle' hay'
  end.

Fixpoint str_in (needle hay : pystr) : bool :=
  starts_with needle hay
  || match hay with
     | [] => false
     | _ :: hay' => str_in needle hay'
     end.

(** [s.lower()] on ASCII text; used to instantiate the parameter [lower]
    below on examples. *)
Definition ascii_lower (s : pystr) : pystr :=
  (λ c, if (65 <=? c)%N && (c <=? 90)%N then (c + 32)%N else c) <$> s.

(** The exceptions of the script: [KeyError] from [record[key]],
    [AttributeError] from [.lower()] on a number, [ValueError] from
    unpacking [bounds], and what [read_dbf] raises. *)
Inductive script_exn : Type :=
  | KeyError (key : pystr)
  | AttributeError
  | ValueError
  | ReadError (e : exn).

Inductive script_outcome (A : Type) : Type :=
  | Done (a : A)
  | Failed (e : script_exn)
  | Unfinished.

Arguments Done {A} a.
Arguments Failed {A} e.
Arguments Unfinished {A}.

(** An entry of the bounds table: [{'name': ..., 'bounds': [...]}]. *)
Record ta_entry : Type := TaEntry { ta_name_of : pystr; bounds : list pyfloat }.

(** A GeoJSON feature as [main] builds it: the three properties and the
    coordinates of the polygon geometry. *)
Record feature : Type := Feature {
  TA2025_V1 : pyval;
  TA2025_NAME : pyval;
  LAND_AREA : pyval;
  coordinates : list (list (list pyfloat))
}.

Module create_simplified_ta_geojson_script.

(** The table of approximate bounding rectangles, by territorial
    authority code. *)
Definition get_ta_approximate_bounds : gmap pystr ta_entry :=
  list_to_map ((λ e, (utf8 e.1.1, TaEntry (utf8 e.1.2) (lit <$> e.2))) <$> [
    ("001", "Far North District", ["172.5"; "-35.8"; "174.3"; "-34.4"]);
    ("002", "Whangarei District", ["173.8"; "-36.2"; "174.5"; "-35.4"]);
    ("003", "Kaipara District", ["173.7"; "-36.8"; "174.3"; "-35.8"]);
    ("011", "Thames-Coromandel District", ["175.2"; "-37.4"; "175.9"; "-36.6"]);
    ("012", "Hauraki District", ["175.4"; "-37.6"; "175.9"; "-37.1"]);
    ("013", "Auckland", ["174.4"; "-37.3"; "175.3"; "-36.4"]);
    ("015", "Hamilton City", ["175.2"; "-37.9"; "175.4"; "-37.6"]);
    ("016", "Waikato District", ["174.8"; "-38.0"; "175.6"; "-37.3"]);
    ("017", "Waipa District", ["175.1"; "-38.3"; "175.6"; "-37.8"]);
    ("018", "Ōtorohanga District", ["174.9"; "-38.4"; "175.3"; "-37.9"]);
    ("019", "South Waikato District", ["175.6"; "-38.5"; "176.2"; "-37.9"]);
    ("020", "Waitomo District", ["174.6"; "-38.7"; "175.1"; "-38.1"]);
    ("021", "Taupo District", ["175.6"; "-39.1"; "176.4"; "-38.3"]);
    ("022", "Western Bay of Plenty District", ["175.8"; "-37.8"; "176.4"; "-37.3"]);
    ("023", "Tauranga City", ["176.0"; "-37.8"; "176.3"; "-37.6"]);
    ("024", "Rotorua District", ["176.0"; "-38.5"; "176.7"; "-37.9"]);
    ("025", "Whakatane District", ["176.7"; "-38.2"; "177.3"; "-37.6"]);
    ("026", "Kawerau District", ["176.6"; "-38.2"; "176.8"; "-38.0"]);
    ("027", "Ōpōtiki District", ["177.1"; "-38.1"; "177.7"; "-37.7"]);
    ("028", "Gisborne District", ["177.7"; "-38.8"; "178.6"; "-37.3"]);
    ("029", "Wairoa District", ["177.2"; "-39.2"; "178.4"; "-38.3"]);
    ("030", "Hastings District", ["176.4"; "-40.0"; "177.0"; "-39.3"]);
    ("031", "Napier City", ["176.7"; "-39.6"; "176.9"; "-39.4"]);
    ("032", "Central Hawke's Bay District", ["176.0"; "-40.2"; "176.6"; "-39.7"]);
    ("033", "New Plymouth District", ["173.8"; "-39.3"; "174.3"; "-38.9"]);
    ("034", "Stratford District", ["174.2"; "-39.4"; "174.5"; "-39.1"]);
    ("035", "South Taranaki District", ["174.2"; "-39.9"; "174.7"; "-39.3"]);
    ("036", "Ruapehu District", ["175.2"; "-39.6"; "175.9"; "-38.9"]);
    ("037", "Whanganui District", ["174.8"; "-40.2"; "175.2"; "-39.6"]);
    ("038", "Rangitikei District", ["175.2"; "-40.2"; "175.8"; "-39.7"]);
    ("039", "Manawatu District", ["175.4"; "-40.6"; "176.0"; "-40.0"]);
    ("040", "Palmerston North City", ["175.5"; "-40.4"; "175.7"; "-40.3"]);
    ("041", "Tararua District", ["175.6"; "-40.8"; "176.2"; "-40.2"]);
    ("042", "Horowhenua District", ["175.0"; "-40.7"; "175.5"; "-40.3"]);
    ("043", "Wellington City", ["174.6"; "-41.4"; "175.0"; "-41.2"]);
    ("044", "Kapiti Coast District", ["174.9"; "-41.0"; "175.2"; "-40.7"]);
    ("045", "Porirua City", ["174.8"; "-41.2"; "175.0"; "-41.0"]);
    ("046", "Upper Hutt City", ["175.0"; "-41.2"; "175.2"; "-41.0"]);
    ("047", "Lower Hutt City", ["174.8"; "-41.3"; "175.1"; "-41.1"]);
    ("048", "Masterton District", ["175.4"; "-41.0"; "175.9"; "-40.6"]);
    ("049", "Carterton District", ["175.4"; "-41.2"; "175.6"; "-41.0"]);
    ("050", "South Wairarapa District", ["175.0"; "-41.6"; "175.5"; "-41.2"]);
    ("051", "Tasman District", ["172.6"; "-41.8"; "173.8"; "-40.7"]);
    ("052", "Nelson City", ["173.1"; "-41.4"; "173.4"; "-41.2"]);
    ("053", "Marlborough District", ["173.4"; "-42.0"; "174.4"; "-41.0"]);
    ("054", "Kaikoura District", ["173.4"; "-42.7"; "173.9"; "-42.0"]);
    ("055", "Buller District", ["171.2"; "-42.2"; "172.4"; "-41.5"]);
    ("056", "Grey District", ["171.0"; "-42.9"; "171.8"; "-42.2"]);
    ("061", "Westland District", ["169.8"; "-44.0"; "171.4"; "-42.9"]);
    ("057", "Christchurch City", ["172.4"; "-43.7"; "172.9"; "-43.4"]);
    ("058", "Selwyn District", ["171.8"; "-44.0"; "172.6"; "-43.4"]);
    ("059", "Waimakariri District", ["172.2"; "-43.6"; "172.8"; "-43.1"]);
    ("060", "Hurunui District", ["172.2"; "-43.1"; "173.0"; "-42.4"]);
    ("062", "Ashburton District", ["171.4"; "-44.2"; "172.0"; "-43.6"]);
    ("063", "Timaru District", ["170.8"; "-44.8"; "171.4"; "-44.0"]);
    ("064", "Mackenzie District", ["170.0"; "-44.8"; "170.8"; "-43.8"]);
    ("065", "Waimate District", ["170.6"; "-45.0"; "171.2"; "-44.6"]);
    ("066", "Waitaki District", ["170.4"; "-45.4"; "171.2"; "-44.6"]);
    ("067", "Dunedin City", ["170.0"; "-46.1"; "170.8"; "-45.6"]);
    ("068", "Clutha District", ["169.0"; "-46.8"; "170.4"; "-45.8"]);
    ("072", "Queenstown-Lakes District", ["168.1"; "-45.8"; "169.0"; "-44.2"]);
    ("073", "Central Otago District", ["169.0"; "-45.8"; "170.2"; "-44.8"]);
    ("069", "Southland District", ["166.5"; "-47.3"; "169.8"; "-45.4"]);
    ("070", "Gore District", ["168.6"; "-46.4"; "169.2"; "-45.8"]);
    ("071", "Invercargill City", ["168.2"; "-46.5"; "168.5"; "-46.3"]);
    ("074", "Matamata-Piako District", ["175.4"; "-38.0"; "176.0"; "-37.5"]);
    ("075", "Hamilton City", ["175.2"; "-37.9"; "175.4"; "-37.6"]);
    ("076", "Chatham Islands Territory", ["-176.8"; "-44.0"; "-176.1"; "-43.6"]) ]).

(** [west, south, east, north = bounds] needs exactly four values; [None]
    stands for [ValueError]. *)
Definition create_rectangle_polygon {A} (bounds : list A) : option (list (list (list A))) :=
  match bounds with
  | [west; south; east; north] =>
    Some [[ [west; south]; [east; south]; [east; north]; [west; north]; [west; south] ]]
  | _ => None
  end.

(** [default_bounds] of [main]. *)
Definition default_bounds : list pyfloat :=
  [lit "172.0"; lit "-42.0"; lit "173.0"; lit "-41.0"].

Section Main.

(** [str.lower], which needs the Unicode case tables, is a parameter. *)
Variable lower : pystr -> pystr.

(** [ta_code == '999' or 'outside' in ta_name.lower()]: the right operand
    is evaluated only when the left one is false, and a number has no
    [lower]. *)
Definition skip_test (ta_code ta_name : pyval) : script_outcome bool :=
  if match ta_code with VStr s => bool_decide (s = utf8 "999") | _ => false end
  then Done true
  else match ta_name with
       | VStr s => Done (str_in (utf8 "outside") (lower s))
       | _ => Failed AttributeError
       end.

(** [ta_bounds[ta_code]['bounds'] if ta_code in ta_bounds else
    default_bounds]; the keys of the table are strings, so a number is
    never in it. *)
Definition bounds_of (ta_bounds : gmap pystr ta_entry) (ta_code : pyval) : list pyfloat :=
  match ta_code with
  | VStr s => match ta_bounds !! s with
              | Some entry => bounds entry
              | None => default_bounds
              end
  | _ => default_bounds
  end.

(** The loop [for record in ta_records:] of [main], with the two variables
    it updates, [geojson["features"]] and [processed_count].  The three
    [print] calls of the body are left out: they change neither variable,
    but each can raise (as [UnicodeEncodeError] does when [sys.stdout]
    cannot encode [ta_name]), so [Done] here says what the loop has built
    when it comes to its end, not that it comes to its end. *)
Fixpoint main_loop (ta_bounds : gmap pystr ta_entry) (ta_records : list dict)
    (features : list feature) (processed_count : nat)
    : script_outcome (list feature * nat) :=
  match ta_records with
  | [] => Done (features, processed_count)
  | record :: ta_records' =>
    match record !! utf8 "TA2025_V1_" with
    | None => Failed (KeyError (utf8 "TA2025_V1_"))
    | Some ta_code =>
      match record !! utf8 "TA2025_V_1" with
      | None => Failed (KeyError (utf8 "TA2025_V_1"))
      | Some ta_name =>
        let land_area := default (VInt 0) (record !! utf8 "LAND_AREA_") in
        match skip_test ta_code ta_name with
        | Failed e => Failed e
        | Unfinished => Unfinished
        | Done true => main_loop ta_bounds ta_records' features processed_count
        | Done false =>
          match create_rectangle_polygon (bounds_of ta_bounds ta_code) with
          | None => Failed ValueError
          | Some polygon =>
            main_loop ta_bounds ta_records'
              (features ++ [Feature ta_code ta_name land_area polygon])
              (S processed_count)
          end
        end
      end
    end
  end.

(** [main], as far as the data goes: the records of
    [territorial-authority-2025.dbf] in the working directory [fs], and the
    features of the GeoJSON object that is handed to [json.dump].  Left
    out are [os.chdir], every [print], [open(output_path, 'w')],
    [json.dump] itself and [os.path.getsize]: each of them can raise, none
    of them changes [geojson], so [Done features] says what [main] dumps
    in a run that gets that far.  [Failed] is the exception of the first
    modelled statement that raises. *)
Definition main (fs : filesystem) : script_outcome (list feature) :=
  match create_simplified_ta_geojson.read_dbf fs "territorial-authority-2025.dbf" with
  | Returns ta_records =>
    match main_loop get_ta_approximate_bounds ta_records [] 0%nat with
    | Done (features, _) => Done features
    | Failed e => Failed e
    | Unfinished => Unfinished
    end
  | Raises e => Failed (ReadError e)
  | OutOfFuel => Unfinished
  end.

End Main.

End create_simplified_ta_geojson_script.

(** The record is the row of the area outside the territorial authorities:
    its code is the string ['999'], or its name is a string that contains
    ['outside'] once lowered. *)
Definition outside_area (lower : pystr -> pystr) (record : dict) : bool :=
  match record !! utf8 "TA2025_V1_" with
  | Some (VStr code) => bool_decide (code = utf8 "999")
  | _ => false
  end
  || match record !! utf8 "TA2025_V_1" with
     | Some (VStr nm) => str_in (utf8 "outside") (lower nm)
     | _ => false
     end.

(** The feature [ft] is the one [main] builds from [record]. *)
Definition feature_of_record (ta_bounds : gmap pystr ta_entry)
    (record : dict) (ft : feature) : Prop :=
  record !! utf8 "TA2025_V1_" = Some (TA2025_V1 ft)
  /\ record !! utf8 "TA2025_V_1" = Some (TA2025_NAME ft)
  /\ LAND_AREA ft = default (VInt 0) (record !! utf8 "LAND_AREA_")
  /\ create_simplified_ta_geojson_script.create_rectangle_polygon
       (create_simplified_ta_geojson_script.bounds_of ta_bounds (TA2025_V1 ft))
     = Some (coordinates ft).

(** A table for the script: code and name as Character fields, the land
    area as a Numeric one; a live row, the row of the outside area, a
    deleted row, and a row whose code is not in the bounds table. *)
Definition ta_table : table :=
  make_table [("TA2025_V1_", "C"%byte, 3); ("TA2025_V_1", "C"%byte, 12);
              ("LAND_AREA_", "N"%byte, 6)]
    [bytes_of " 001Far North     6.68"; bytes_of " 999Area Outside     0";
     bytes_of "*002Whangarei     2.71"; bytes_of " 500Nowhere City    12"].

(** ** More layouts and encodings for the reader *)

(** A table whose header is longer than the descriptors need: [gap] bytes
    lie between the terminator and the first record. *)
Definition gap_table_bytes (t : table) (gap : list byte) : list byte :=
  hdr t ++ concat (descs t) ++ [x0d] ++ gap ++ concat (recs t) ++ trailer t.

Record well_formed_gap (t : table) (gap : list byte) : Prop := {
  wfg_hdr : length (hdr t) = 32%nat;
  wfg_num_records : hdr_num_records (hdr t) = Z.of_nat (length (recs t));
  wfg_header_len :
    hdr_header_len (hdr t)
    = 33 + 32 * Z.of_nat (length (descs t)) + Z.of_nat (length gap);
  wfg_record_len : 0 < hdr_record_len (hdr t);
  wfg_descs : Forall wf_desc (descs t);
  wfg_recs : Forall (λ r, Z.of_nat (length r) = hdr_record_len (hdr t)) (recs t)
}.

(** [str(z).encode()]: the decimal digits of an integer, with [-] for a
    negative one. *)
Definition digit_byte (d : Z) : byte := default x30 (Byte.of_N (Z.to_N (48 + d))).

Fixpoint digits_acc (fuel : nat) (n : Z) (acc : list byte) : list byte :=
  match fuel with
  | O => acc
  | S fuel' =>
    let acc' := digit_byte (n mod 10) :: acc in
    if n <? 10 then acc' else digits_acc fuel' (n / 10) acc'
  end.

Definition repr_int (z : Z) : list byte :=
  if z <? 0 then "-"%byte :: digits_acc (S (Z.to_nat (- z))) (- z) []
  else digits_acc (S (Z.to_nat z)) z [].

(** Whether the reader stores a value for a field of this type. *)
Definition stored (f : field) : bool :=
  Byte.eqb (field_type f) "C" || Byte.eqb (field_type f) "N".

(** The [NAME] table with a header three bytes longer than its descriptor
    needs. *)
Definition gap_name_table : table :=
  Table (make_hdr 2 68 11) [make_desc "NAME" "C" 10]
        [bytes_of " ABCDEFGHIJ"; bytes_of "*ZZZZZZZZZZ"] [x1a].

(** Two fields share the name [CODE]. *)
Definition twice_table : table :=
  make_table [("CODE", "C"%byte, 2); ("CODE", "N"%byte, 3)] [bytes_of " ab 12"].

(** Two fields of width 0 before a Character field. *)
Definition empty_fields_table : table :=
  make_table [("A", "C"%byte, 0); ("B", "N"%byte, 0); ("NAME", "C"%byte, 4)]
    [bytes_of " Anna"].

(** A file whose only field name is [N] followed by the Latin-1 byte
    [0xE9], which is not UTF-8. *)
Definition latin1_name_bytes : list byte :=
  make_hdr 1 65 5
  ++ ([x4e; xe9] ++ replicate 9 x00 ++ ["C"%byte] ++ replicate 4 x00
      ++ [x04] ++ replicate 15 x00)
  ++ [x0d] ++ bytes_of " Anna" ++ [x1a].

(** A Character value stored in Latin-1: [Caf], the byte [0xE9], [s]. *)
Definition latin1_value_table : table :=
  make_table [("NAME", "C"%byte, 5)] [bytes_of " Caf" ++ [xe9] ++ bytes_of "s"].

(** ** The file object: basic facts *)

Lemma read_middle (pre x post : list byte) :
  read (length x) (File (pre ++ x ++ post) (length pre))
  = Returns (x, File (pre ++ x ++ post) (length pre + length x)).
Proof.
  unfold read; simpl.
  by rewrite drop_app_length, take_app_length.
Qed.

Lemma unpack_exact (size : nat) (data : list byte) (f : file) :
  length data = size -> unpack size data f = Returns (Py.le_uint data, f).
Proof.
  intros Hl. unfold unpack, Py.unpack_le. by rewrite Hl, Nat.eqb_refl.
Qed.

Lemma unpack_short (size : nat) (data : list byte) (f : file) :
  length data ≠ size -> unpack size data f = Raises StructError.
Proof.
  intros Hl. unfold unpack, Py.unpack_le.
  by destruct (Nat.eqb_spec (length data) size).
Qed.

Lemma length_slice {A} (l : list A) (i j : nat) :
  length (Py.slice l i j) = ((j - i) `min` (length l - i))%nat.
Proof. unfold Py.slice. by rewrite length_take, length_drop. Qed.

Lemma ord_range (c : byte) : 0 <= Py.ord c < 256.
Proof. unfold Py.ord. pose proof (Byte.to_N_bounded c). lia. Qed.

Lemma le_uint_range (bs : list byte) : 0 <= Py.le_uint bs < 256 ^ Z.of_nat (length bs).
Proof.
  induction bs as [|c bs IH]; simpl Py.le_uint; [simpl; lia|].
  rewrite length_cons, Nat2Z.inj_succ, Z.pow_succ_r by lia.
  pose proof (ord_range c). lia.
Qed.

(** ** The descriptor loop on a well-formed descriptor array *)

Lemma index_Some (data : list byte) (i : nat) (c : byte) (f : file) :
  data !! i = Some c -> index data i f = Returns (c, f).
Proof. intros H. unfold index. by rewrite H. Qed.

Lemma index_None (data : list byte) (i : nat) (f : file) :
  data !! i = None -> index data i f = Raises IndexError.
Proof. intros H. unfold index. by rewrite H. Qed.

Lemma while_fields_descs (ds : list (list byte)) :
  Forall wf_desc ds ->
  forall (fuel : nat) (pre post : list byte) (acc : list field),
    (length ds < fuel)%nat ->
    while_fields fuel (Z.of_nat (length pre) + 32 * Z.of_nat (length ds) + 1) acc
      (File (pre ++ concat ds ++ post) (length pre))
    = Returns (acc ++ omap field_of ds,
               File (pre ++ concat ds ++ post) (length pre + 32 * length ds)).
Proof.
  induction 1 as [|d ds (Hlen & Hterm & [fld Hfld]) Hds IH];
    intros fuel pre post acc Hfuel;
    (destruct fuel as [|fuel]; [simpl in Hfuel; lia|]).
  - simpl. unfold bind, tell; simpl.
    replace (_ <? _) with false by (symmetry; apply Z.ltb_ge; lia).
    by rewrite app_nil_r, Nat.add_0_r.
  - cbn [while_fields]. unfold bind at 1. unfold tell; cbn [pos].
    replace (_ <? _) with true by (symmetry; apply Z.ltb_lt; rewrite length_cons; lia).
    cbn [concat]. rewrite <- (app_assoc d).
    unfold bind at 1. rewrite <- Hlen, read_middle.
    destruct (d !! 0%nat) as [c|] eqn:Hc;
      [|apply lookup_ge_None in Hc; lia].
    unfold bind at 1. rewrite (index_Some _ _ _ _ Hc).
    destruct (Byte.eqb c x0d) eqn:Hcd;
      [apply Byte.byte_dec_bl in Hcd; congruence|].
    unfold field_of in Hfld.
    destruct (Py.utf8_decode false _) as [nm|] eqn:Hnm; [|done].
    destruct (d !! 11%nat) as [ty|] eqn:Hty; [|done].
    destruct (d !! 16%nat) as [ln|] eqn:Hln; [|done].
    simpl in Hfld. injection Hfld as <-.
    unfold bind at 1. unfold decode. rewrite Hnm. unfold ret at 1.
    unfold bind at 1. rewrite (index_Some _ _ _ _ Hty).
    unfold bind at 1. rewrite (index_Some _ _ _ _ Hln).
    rewrite <- length_app.
    rewrite (app_assoc pre d).
    replace (Z.of_nat (length pre) + 32 * Z.of_nat (length (d :: ds)) + 1)
      with (Z.of_nat (length (pre ++ d)) + 32 * Z.of_nat (length ds) + 1)
      by (rewrite length_app, length_cons; lia).
    rewrite IH by (simpl in Hfuel; lia).
    cbn [omap list_omap]. unfold field_of at 2. rewrite Hnm, Hty, Hln. simpl.
    rewrite <- app_assoc. simpl.
    do 3 f_equal. rewrite length_app, Hlen. lia.
Qed.

(** ** The record loop on a block of whole records *)

Lemma live_cons (r : list byte) (rs : list (list byte)) :
  live (r :: rs) = if deleted r then live rs else r :: live rs.
Proof.
  unfold live. destruct (deleted r) eqn:Hd.
  - rewrite filter_cons_False; [done|]. rewrite Hd. simpl. tauto.
  - rewrite filter_cons_True; [done|]. rewrite Hd. simpl. tauto.
Qed.

Lemma live_app (rs1 rs2 : list (list byte)) : live (rs1 ++ rs2) = live rs1 ++ live rs2.
Proof. apply filter_app. Qed.

Lemma for_records_block (fields : list field) (rl : nat) (rs : list (list byte)) :
  (0 < rl)%nat ->
  Forall (λ r, length r = rl) rs ->
  forall (pre post : list byte) (acc : list dict),
    for_records (length rs) rl fields acc
      (File (pre ++ concat rs ++ post) (length pre))
    = Returns (acc ++ (row fields <$> live rs),
               File (pre ++ concat rs ++ post) (length pre + rl * length rs)).
Proof.
  intros Hrl. induction 1 as [|r rs Hr Hrs IH]; intros pre post acc.
  - simpl. unfold ret. by rewrite app_nil_r, Nat.mul_0_r, Nat.add_0_r.
  - cbn [length for_records concat]. rewrite <- (app_assoc r).
    unfold bind at 1. rewrite <- Hr at 1. rewrite read_middle.
    destruct r as [|c r']; [simpl in Hr; lia|].
    unfold bind at 1. rewrite (index_Some _ 0 c) by done.
    rewrite live_cons. cbn [deleted].
    rewrite (app_assoc pre (c :: r')), <- length_app.
    assert (Hpos : (length (pre ++ c :: r') + rl * length rs
                    = length pre + rl * S (length rs))%nat)
      by (rewrite length_app, Hr; lia).
    destruct (Byte.eqb c x2a); rewrite IH, Hpos; [done|].
    by rewrite fmap_cons, <- app_assoc.
Qed.

(** ** The reader on a well-formed table *)

Lemma read_start (n : nat) (x post : list byte) :
  length x = n -> read n (File (x ++ post) 0) = Returns (x, File (x ++ post) n).
Proof.
  intros <-. unfold read; cbn [content pos]. by rewrite drop_0, take_app_length.
Qed.

Lemma length_concat_descs (ds : list (list byte)) :
  Forall wf_desc ds -> length (concat ds) = (32 * length ds)%nat.
Proof.
  induction 1 as [|d ds (Hlen & _) _ IH]; [done|].
  simpl. rewrite length_app, IH, Hlen. lia.
Qed.

Lemma length_table_fields (ds : list (list byte)) :
  Forall wf_desc ds -> length (omap field_of ds) = length ds.
Proof.
  induction 1 as [|d ds (_ & _ & [fld Hfld]) _ IH]; [done|].
  simpl. rewrite Hfld. simpl. f_equal. exact IH.
Qed.

Lemma read_dbf_table (fs : filesystem) (filename : string) (t : table) :
  well_formed t ->
  fs !! filename = Some (table_bytes t) ->
  read_dbf fs filename = Returns (row (table_fields t) <$> live (recs t)).
Proof.
  intros [Hhdr Hnum Hhl Hrl Hds _ Hrs] Hfs.
  unfold read_dbf, with_open. rewrite Hfs. unfold table_bytes.
  unfold bind at 1. rewrite read_start by done.
  unfold bind at 1. rewrite unpack_exact by (rewrite length_slice; lia).
  unfold bind at 1. rewrite unpack_exact by (rewrite length_slice; lia).
  unfold bind at 1. rewrite unpack_exact by (rewrite length_slice; lia).
  fold (hdr_num_records (hdr t)) (hdr_header_len (hdr t)) (hdr_record_len (hdr t)).
  unfold bind at 1. unfold seek at 1. cbn [content].
  rewrite Hhl. rewrite <- Hhdr.
  unfold bind at 1.
  replace (33 + 32 * Z.of_nat (length (descs t)))
    with (Z.of_nat (length (hdr t)) + 32 * Z.of_nat (length (descs t)) + 1) by lia.
  rewrite while_fields_descs by (done || lia).
  unfold bind at 1. unfold seek at 1. cbn [content app].
  fold (table_fields t).
  rewrite Hnum, Nat2Z.id.
  assert (Hrl' : (0 < Z.to_nat (hdr_record_len (hdr t)))%nat) by lia.
  pose proof (for_records_block (table_fields t) _ (recs t) Hrl') as Hloop.
  specialize (Hloop ltac:(eapply Forall_impl; [exact Hrs|]; simpl; intros; lia)).
  specialize (Hloop (hdr t ++ concat (descs t) ++ [x0d]) (trailer t) []).
  rewrite <- !app_assoc in Hloop. simpl in Hloop.
  replace (Z.to_nat (Z.of_nat (length (hdr t)) + 32 * Z.of_nat (length (descs t)) + 1))
    with (length (hdr t ++ concat (descs t) ++ [x0d])).
  - rewrite !length_app in *. simpl in *. by rewrite Hloop.
  - rewrite !length_app, length_concat_descs by done. simpl. lia.
Qed.

(** ** The field loop *)

Lemma for_fields_cons (f : field) (fields : list field) (r : list byte)
    (o : nat) (d : dict) :
  for_fields (f :: fields) r o d
  = for_fields fields r (o + field_len f)
      (store f (Py.slice r o (o + field_len f)) d).
Proof.
  destruct f as [nm ty ln]. cbn [for_fields field_len]. f_equal.
  unfold store, field_value, numeric. cbn [field_type name].
  destruct (Byte.eqb ty "C"); [done|].
  destruct (Byte.eqb ty "N"); [|done].
  destruct (Py.contains _ _).
  - by destruct (Py.float _).
  - by destruct (Py.int _).
Qed.

Lemma for_fields_offset (fields : list field) (r : list byte) (o : nat) (d : dict) :
  (for_fields fields r o d).1 = (o + sum_list (field_len <$> fields))%nat.
Proof.
  revert o d. induction fields as [|f fields IH]; intros o d.
  - simpl. lia.
  - rewrite for_fields_cons, IH, fmap_cons. cbn [sum_list sum_list_with]. unfold id. lia.
Qed.

Lemma store_lookup_ne (f : field) (raw : list byte) (d : dict) (k : pystr) :
  k ≠ name f -> store f raw d !! k = d !! k.
Proof.
  intros Hk. unfold store. destruct (field_value _ _); [|done].
  by rewrite lookup_insert_ne.
Qed.

Lemma store_lookup (f : field) (raw : list byte) (d : dict) :
  store f raw d !! name f
  = match field_value (field_type f) raw with
    | Some v => Some v
    | None => d !! name f
    end.
Proof.
  unfold store. destruct (field_value _ _); [|done]. by rewrite lookup_insert_eq.
Qed.

Lemma for_fields_lookup_other (fields : list field) (r : list byte)
    (o : nat) (d : dict) (k : pystr) :
  k ∉ name <$> fields -> (for_fields fields r o d).2 !! k = d !! k.
Proof.
  revert o d. induction fields as [|f fields IH]; intros o d Hk; [done|].
  rewrite fmap_cons, not_elem_of_cons in Hk. destruct Hk as [Hne Hk].
  by rewrite for_fields_cons, IH, store_lookup_ne.
Qed.

Lemma for_fields_lookup (fields : list field) (r : list byte) :
  forall (o : nat) (d : dict) (i : nat) (f : field),
    NoDup (name <$> fields) ->
    fields !! i = Some f ->
    (for_fields fields r o d).2 !! name f
    = match field_value (field_type f)
              (Py.slice r (o + sum_list (field_len <$> take i fields))
                          (o + sum_list (field_len <$> take i fields) + field_len f)) with
      | Some v => Some v
      | None => d !! name f
      end.
Proof.
  induction fields as [|f0 fields IH]; intros o d i f Hnd Hi; [done|].
  rewrite fmap_cons, NoDup_cons in Hnd. destruct Hnd as [Hfresh Hnd].
  rewrite for_fields_cons. destruct i as [|i].
  - injection Hi as ->. rewrite for_fields_lookup_other by done.
    simpl. rewrite Nat.add_0_r. apply store_lookup.
  - simpl in Hi. rewrite (IH _ _ i f) by done.
    assert (Hne : name f ≠ name f0).
    { intros Heq. apply Hfresh. rewrite <- Heq.
      apply list_elem_of_fmap. exists f. split; [done|].
      by eapply list_elem_of_lookup_2. }
    rewrite store_lookup_ne by done.
    cbn [take fmap list_fmap sum_list sum_list_with]. unfold id.
    by rewrite !Nat.add_assoc.
Qed.

Lemma row_lookup (fields : list field) (r : list byte) (i : nat) (f : field) :
  NoDup (name <$> fields) ->
  fields !! i = Some f ->
  row fields r !! name f
  = field_value (field_type f)
      (Py.slice r (field_offset fields i) (field_offset fields i + field_len f)).
Proof.
  intros Hnd Hi. unfold row, field_offset.
  rewrite (for_fields_lookup _ _ _ _ i f) by done.
  rewrite lookup_empty. by destruct (field_value _ _).
Qed.

Lemma row_lookup_other (fields : list field) (r : list byte) (k : pystr) :
  k ∉ name <$> fields -> row fields r !! k = None.
Proof.
  intros Hk. unfold row. by rewrite for_fields_lookup_other.
Qed.

(** ** The two copies agree *)

Lemma read_dbf_copies (fs : filesystem) (filename : string) :
  generate_complete_ta_data.read_dbf fs filename
  = create_simplified_ta_geojson.read_dbf fs filename.
Proof. reflexivity. Qed.

Lemma readers_same (rd : filesystem -> string -> outcome (list dict)) :
  rd ∈ readers -> rd = create_simplified_ta_geojson.read_dbf.
Proof.
  unfold readers. intros H.
  apply elem_of_cons in H as [->|H]; [done|].
  apply list_elem_of_singleton in H as ->. reflexivity.
Qed.

Lemma simplified_reader : create_simplified_ta_geojson.read_dbf ∈ readers.
Proof. apply list_elem_of_here. Defined.

Lemma complete_reader : generate_complete_ta_data.read_dbf ∈ readers.
Proof. apply list_elem_of_further, list_elem_of_here. Defined.

(** ** Short headers *)

Lemma read_whole (n : nat) (src : list byte) :
  (length src <= n)%nat -> read n (File src 0) = Returns (src, File src (length src)).
Proof.
  intros Hn. unfold read; cbn [content pos]. by rewrite drop_0, take_ge.
Qed.

Lemma read_dbf_short_header (fs : filesystem) (filename : string) (src : list byte) :
  fs !! filename = Some src ->
  (length src < 12)%nat ->
  read_dbf fs filename = Raises StructError.
Proof.
  intros Hfs Hlen. unfold read_dbf, with_open. rewrite Hfs.
  unfold bind at 1. rewrite read_whole by lia.
  destruct (decide (length src < 8)%nat).
  { unfold bind at 1. by rewrite unpack_short by (rewrite length_slice; lia). }
  unfold bind at 1. rewrite unpack_exact by (rewrite length_slice; lia).
  destruct (decide (length src < 10)%nat).
  { unfold bind at 1. by rewrite unpack_short by (rewrite length_slice; lia). }
  unfold bind at 1. rewrite unpack_exact by (rewrite length_slice; lia).
  unfold bind at 1. by rewrite unpack_short by (rewrite length_slice; lia).
Qed.

(** ** Termination and truncated files *)

(** What the descriptor loop can do on any file: return (leaving the bytes
    of the file as they are), or raise [IndexError] or
    [UnicodeDecodeError]; the budget of [header_len + 1] iterations is
    never used up. *)
Lemma while_fields_total (fuel : nat) :
  forall (header_len : Z) (acc : list field) (f : file),
    (1 <= fuel)%nat ->
    header_len - Z.of_nat (pos f) <= Z.of_nat fuel ->
    fields_outcome (content f) (while_fields fuel header_len acc f).
Proof.
  induction fuel as [|fuel IH]; intros hl acc [src p] Hone Hfuel; [lia|].
  cbn [pos content] in *. cbn [while_fields]. unfold bind at 1, tell; cbn [pos].
  destruct (Z.ltb_spec (Z.of_nat p) (hl - 1)) as [Hlt|Hge]; [|done].
  unfold bind at 1, read; cbn [content pos].
  set (data := take 32 (drop p src)).
  destruct (data !! 0%nat) as [c|] eqn:Hc;
    [|unfold bind; rewrite index_None by done; by left].
  unfold bind at 1. rewrite (index_Some _ _ _ _ Hc).
  destruct (Byte.eqb c x0d); [done|].
  unfold bind at 1, decode.
  destruct (Py.utf8_decode false _) as [nm|]; [|by right].
  unfold ret at 1.
  destruct (data !! 11%nat) as [ty|] eqn:Hty;
    [|unfold bind; rewrite index_None by done; by left].
  unfold bind at 1. rewrite (index_Some _ _ _ _ Hty).
  destruct (data !! 16%nat) as [ln|] eqn:Hln;
    [|unfold bind; rewrite index_None by done; by left].
  unfold bind at 1. rewrite (index_Some _ _ _ _ Hln).
  apply lookup_lt_Some in Hc.
  apply (IH hl _ (File src (p + length data))); cbn [pos]; lia.
Qed.

(** The record loop never runs out of budget either: it returns, or it
    raises [IndexError]. *)
Lemma for_records_total (n : nat) :
  forall (rl : nat) (fields : list field) (acc : list dict) (f : file),
    records_outcome (for_records n rl fields acc f).
Proof.
  induction n as [|n IH]; intros rl fields acc f; [done|].
  cbn [for_records]. unfold bind at 1, read.
  set (data := take rl _).
  destruct (data !! 0%nat) as [c|] eqn:Hc;
    [|unfold bind; by rewrite index_None].
  unfold bind at 1. rewrite (index_Some _ _ _ _ Hc).
  destruct (Byte.eqb c x2a); apply IH.
Qed.

(** With [n + 1] records still to read and the last of them starting at or
    after the end of the file, the record loop raises [IndexError]. *)
Lemma for_records_truncated (n : nat) :
  forall (rl : nat) (fields : list field) (acc : list dict) (src : list byte) (p : nat),
    (length src <= p + n * rl)%nat ->
    for_records (S n) rl fields acc (File src p) = Raises IndexError.
Proof.
  induction n as [|n IH]; intros rl fields acc src p Hlen;
    cbn [for_records]; unfold bind at 1, read; cbn [content pos];
    set (data := take rl (drop p src));
    (destruct (data !! 0%nat) as [c|] eqn:Hc;
      [|unfold bind; by rewrite index_None]).
  - apply lookup_lt_Some in Hc. subst data.
    rewrite length_take, length_drop in Hc. lia.
  - unfold bind at 1. rewrite (index_Some _ _ _ _ Hc).
    assert (Hnext : (length src <= p + length data + n * rl)%nat).
    { subst data. rewrite length_take, length_drop. lia. }
    destruct (Byte.eqb c x2a); by apply IH.
Qed.

Lemma read_header (src : list byte) :
  read 32 (File src 0) = Returns (take 32 src, File src (length (take 32 src))).
Proof. unfold read; cbn [content pos]. by rewrite drop_0. Qed.

Lemma read_dbf_truncated (fs : filesystem) (filename : string) (src : list byte) :
  fs !! filename = Some src ->
  (12 <= length src)%nat ->
  0 < hdr_num_records (take 32 src) ->
  Z.of_nat (length src)
    <= hdr_header_len (take 32 src)
       + (hdr_num_records (take 32 src) - 1) * hdr_record_len (take 32 src) ->
  exists e, read_dbf fs filename = Raises e
            /\ (e = IndexError \/ e = UnicodeDecodeError).
Proof.
  intros Hfs Hlen Hn Hcut.
  cut (match read_dbf fs filename with
       | Raises e => e = IndexError \/ e = UnicodeDecodeError
       | _ => False
       end).
  { destruct (read_dbf fs filename) as [out|e|]; [done| |done]. by exists e. }
  unfold read_dbf, with_open. rewrite Hfs.
  unfold bind at 1. rewrite read_header.
  assert (Hh : (12 <= length (take 32 src))%nat) by (rewrite length_take; lia).
  unfold bind at 1. rewrite unpack_exact by (rewrite length_slice; lia).
  unfold bind at 1. rewrite unpack_exact by (rewrite length_slice; lia).
  unfold bind at 1. rewrite unpack_exact by (rewrite length_slice; lia).
  fold (hdr_num_records (take 32 src)) (hdr_header_len (take 32 src))
       (hdr_record_len (take 32 src)) in *.
  set (n := hdr_num_records (take 32 src)) in *.
  set (hl := hdr_header_len (take 32 src)) in *.
  set (rl := hdr_record_len (take 32 src)) in *.
  assert (Hhl : 0 <= hl) by apply le_uint_range.
  assert (Hrl : 0 <= rl) by apply le_uint_range.
  unfold bind at 1, seek at 1. cbn [content].
  pose proof (while_fields_total (S (Z.to_nat hl)) hl [] (File src 32)) as Hloop.
  cbn [content pos] in Hloop. specialize (Hloop ltac:(lia) ltac:(lia)).
  unfold bind at 1.
  destruct (while_fields _ _ _ _) as [[fields [src' p]]|e|]; cbn in Hloop.
  - subst src'. unfold bind at 1, seek at 1. cbn [content].
    destruct (Z.to_nat n) as [|n'] eqn:Hn'; [lia|].
    rewrite for_records_truncated; [by left|].
    apply Nat2Z.inj_le. rewrite Nat2Z.inj_add, Nat2Z.inj_mul, !Z2Nat.id by lia.
    replace (Z.of_nat n') with (n - 1) by lia. lia.
  - done.
  - done.
Qed.

Lemma read_dbf_terminates (fs : filesystem) (filename : string) :
  read_dbf fs filename ≠ OutOfFuel.
Proof.
  unfold read_dbf, with_open. destruct (fs !! filename) as [src|]; [|done].
  unfold bind at 1. rewrite read_header.
  unfold bind at 1, unpack at 1, Py.unpack_le. destruct (Nat.eqb _ _); [|done].
  unfold bind at 1, unpack at 1, Py.unpack_le. destruct (Nat.eqb _ _); [|done].
  unfold bind at 1, unpack at 1, Py.unpack_le. destruct (Nat.eqb _ _); [|done].
  set (hl := Py.le_uint (Py.slice (take 32 src) 8 10)).
  assert (Hhl : 0 <= hl) by apply le_uint_range.
  unfold bind at 1, seek at 1. cbn [content].
  pose proof (while_fields_total (S (Z.to_nat hl)) hl [] (File src 32)) as Hloop.
  cbn [content pos] in Hloop. specialize (Hloop ltac:(lia) ltac:(lia)).
  unfold bind at 1.
  destruct (while_fields _ _ _ _) as [[fields f']|e|]; cbn in Hloop; [|done|done].
  unfold bind at 1, seek at 1.
  match goal with
  | |- context [for_records ?n ?rl ?fs ?acc ?f] =>
      pose proof (for_records_total n rl fs acc f) as Hrec;
      destruct (for_records n rl fs acc f) as [[out f'']|e|]
  end; done.
Qed.

(** ** The hand-built tables are well formed *)

Ltac wf_by_computation :=
  split;
  [ reflexivity | reflexivity | reflexivity | reflexivity
  | repeat constructor; vm_compute; (discriminate || eauto)
  | apply (bool_decide_unpack _); vm_compute; exact I
  | repeat constructor ].

Lemma name_table_wf : well_formed name_table.
Proof. wf_by_computation. Defined.

Lemma born_table_wf : well_formed born_table.
Proof. wf_by_computation. Defined.

Lemma padded_table_wf : well_formed padded_table.
Proof. wf_by_computation. Defined.

(** ** The claims *)

(** C6. The two copies of [read_dbf], the one of
    [create_simplified_ta_geojson.py] and the one of
    [generate_complete_ta_data.py], are equivalent: on every file system and
    file name they return the same record sequence or raise the same
    exception. *)
Theorem read_dbf_copies_equivalent :
  forall (fs : filesystem) (filename : string),
    create_simplified_ta_geojson.read_dbf fs filename
    = generate_complete_ta_data.read_dbf fs filename.
Proof.
  intros fs filename. symmetry. apply read_dbf_copies.
Qed.

(** C7, as the claim states it, fails: a source of 12 zero bytes has fewer
    than 32 bytes, and both readers return the empty sequence for it. *)
Lemma read_dbf_twelve_byte_source_returns :
  (length (replicate 12 x00) < 32)%nat
  /\ create_simplified_ta_geojson.read_dbf {[ "ta.dbf" := replicate 12 x00 ]} "ta.dbf"
     = Returns []
  /\ generate_complete_ta_data.read_dbf {[ "ta.dbf" := replicate 12 x00 ]} "ta.dbf"
     = Returns [].
Proof. split; [simpl; lia|]. split; vm_compute; reflexivity. Qed.

(** C7, amended. For every source of fewer than 12 bytes, [read_dbf] raises
    [struct.error] while unpacking the header numbers and returns no record
    sequence. *)
Theorem read_dbf_header_under_12_bytes :
  forall (rd : filesystem -> string -> outcome (list dict))
         (fs : filesystem) (filename : string) (src : list byte),
    rd ∈ readers ->
    fs !! filename = Some src ->
    (length src < 12)%nat ->
    rd fs filename = Raises StructError.
Proof.
  intros rd fs filename src Hrd Hfs Hlen.
  rewrite (readers_same rd Hrd). by eapply read_dbf_short_header.
Qed.

Lemma read_dbf_header_under_12_bytes_witness :
  generate_complete_ta_data.read_dbf {[ "ta.dbf" := replicate 11 x00 ]} "ta.dbf"
  = Raises StructError.
Proof.
  apply (read_dbf_header_under_12_bytes _ _ _ (replicate 11 x00)).
  - apply complete_reader.
  - reflexivity.
  - simpl. lia.
Defined.

(** C2, as the claim states it, fails: the header of this file declares two
    records of 11 bytes after a 65-byte header, 87 bytes in all, the file
    has 81, and both readers return two records, the second decoded from
    the five bytes that are there. *)
Lemma read_dbf_cut_last_record_decoded :
  Z.of_nat (length cut_name_table_bytes)
    < hdr_header_len (take 32 cut_name_table_bytes)
      + hdr_num_records (take 32 cut_name_table_bytes)
        * hdr_record_len (take 32 cut_name_table_bytes)
  /\ create_simplified_ta_geojson.read_dbf {[ "ta.dbf" := cut_name_table_bytes ]} "ta.dbf"
     = Returns [ {[ text "NAME" := VStr (text "ABCDEFGHIJ") ]};
                 {[ text "NAME" := VStr (text "KLMN") ]} ]
  /\ generate_complete_ta_data.read_dbf {[ "ta.dbf" := cut_name_table_bytes ]} "ta.dbf"
     = Returns [ {[ text "NAME" := VStr (text "ABCDEFGHIJ") ]};
                 {[ text "NAME" := VStr (text "KLMN") ]} ].
Proof. split; [vm_compute; reflexivity|]. split; vm_compute; reflexivity. Qed.

(** C2, amended. When the header declares at least one record and the last
    declared record starts at or after the end of the file, so that some
    declared record has no byte in the file, [read_dbf] fails: it raises
    [IndexError] on indexing the empty read, unless the descriptor loop has
    already raised [IndexError] or [UnicodeDecodeError]. *)
Theorem read_dbf_missing_record_raises :
  forall (rd : filesystem -> string -> outcome (list dict))
         (fs : filesystem) (filename : string) (src : list byte),
    rd ∈ readers ->
    fs !! filename = Some src ->
    (12 <= length src)%nat ->
    0 < hdr_num_records (take 32 src) ->
    Z.of_nat (length src)
      <= hdr_header_len (take 32 src)
         + (hdr_num_records (take 32 src) - 1) * hdr_record_len (take 32 src) ->
    exists e, rd fs filename = Raises e
              /\ (e = IndexError \/ e = UnicodeDecodeError).
Proof.
  intros rd fs filename src Hrd Hfs Hlen Hn Hcut.
  rewrite (readers_same rd Hrd). by eapply read_dbf_truncated.
Qed.

Lemma read_dbf_missing_record_raises_witness :
  exists e,
    create_simplified_ta_geojson.read_dbf
      {[ "ta.dbf" := take 76 (table_bytes name_table) ]} "ta.dbf" = Raises e
    /\ (e = IndexError \/ e = UnicodeDecodeError).
Proof.
  apply (read_dbf_missing_record_raises _ _ _ (take 76 (table_bytes name_table))).
  - apply simplified_reader.
  - reflexivity.
  - vm_compute. lia.
  - vm_compute. reflexivity.
  - vm_compute. discriminate.
Defined.

Lemma length_live_deleted (rs : list (list byte)) :
  (length (live rs) + length (filter (λ r, deleted r) rs))%nat = length rs.
Proof.
  induction rs as [|r rs IH]; [done|].
  rewrite live_cons. destruct (deleted r) eqn:Hd.
  - rewrite filter_cons_True; [|by apply Is_true_true]. simpl. lia.
  - rewrite filter_cons_False; [|by apply Is_true_false]. simpl. lia.
Qed.

(** C1. For every well-formed table whose record block holds [N] records
    not marked deleted and [M] records whose first byte is [0x2A],
    [read_dbf] returns exactly [N] records: the rows of the records not
    marked deleted, in the order in which the records lie in the file. *)
Theorem read_dbf_live_records_in_file_order :
  forall (rd : filesystem -> string -> outcome (list dict))
         (fs : filesystem) (filename : string) (t : table) (N M : nat),
    rd ∈ readers ->
    well_formed t ->
    fs !! filename = Some (table_bytes t) ->
    length (filter (λ r, ¬ deleted r) (recs t)) = N ->
    length (filter (λ r, deleted r) (recs t)) = M ->
    exists out,
      rd fs filename = Returns out
      /\ length out = N
      /\ (N + M)%nat = length (recs t)
      /\ out = row (table_fields t) <$> filter (λ r, ¬ deleted r) (recs t).
Proof.
  intros rd fs filename t N M Hrd Hwf Hfs HN HM.
  rewrite (readers_same rd Hrd).
  exists (row (table_fields t) <$> live (recs t)). split; [|split; [|split]].
  - by apply read_dbf_table.
  - by rewrite length_fmap.
  - rewrite <- HN, <- HM. apply length_live_deleted.
  - done.
Qed.

Lemma read_dbf_live_records_in_file_order_witness :
  exists out,
    generate_complete_ta_data.read_dbf
      {[ "ta.dbf" := table_bytes name_table ]} "ta.dbf" = Returns out
    /\ length out = 1%nat
    /\ (1 + 1)%nat = length (recs name_table)
    /\ out = row (table_fields name_table)
             <$> filter (λ r, ¬ deleted r) (recs name_table).
Proof.
  apply read_dbf_live_records_in_file_order.
  - apply complete_reader.
  - apply name_table_wf.
  - reflexivity.
  - reflexivity.
  - reflexivity.
Defined.

(** C4. In a well-formed table a record whose first byte is [0x2A] adds
    nothing to the output of [read_dbf], whatever its other bytes are: the
    output is made of the rows of the records before it and after it.  In
    particular the table with the single field [NAME] (Character, width
    10), the live record [ABCDEFGHIJ] and the deleted record [ZZZZZZZZZZ]
    yields exactly one record, mapping [NAME] to [ABCDEFGHIJ]. *)
Theorem read_dbf_skips_deleted :
  forall (rd : filesystem -> string -> outcome (list dict)),
    rd ∈ readers ->
    (forall (fs : filesystem) (filename : string) (t : table)
            (before after : list (list byte)) (r : list byte),
        well_formed t ->
        fs !! filename = Some (table_bytes t) ->
        recs t = before ++ r :: after ->
        r !! 0%nat = Some x2a ->
        rd fs filename
        = Returns ((row (table_fields t) <$> filter (λ r, ¬ deleted r) before)
                   ++ (row (table_fields t) <$> filter (λ r, ¬ deleted r) after)))
    /\ rd {[ "ta.dbf" := table_bytes name_table ]} "ta.dbf"
       = Returns [ {[ text "NAME" := VStr (text "ABCDEFGHIJ") ]} ].
Proof.
  intros rd Hrd. rewrite (readers_same rd Hrd). split.
  - intros fs filename t before after r Hwf Hfs Hrecs Hdel.
    rewrite (read_dbf_table _ _ t) by done.
    rewrite Hrecs, live_app, live_cons.
    destruct r as [|c r]; [done|]. injection Hdel as ->.
    cbn [deleted Byte.eqb]. by rewrite fmap_app.
  - vm_compute. reflexivity.
Qed.

Lemma read_dbf_skips_deleted_witness :
  create_simplified_ta_geojson.read_dbf
    {[ "ta.dbf" := table_bytes name_table ]} "ta.dbf"
  = Returns ((row (table_fields name_table)
                <$> filter (λ r, ¬ deleted r) [bytes_of " ABCDEFGHIJ"])
             ++ (row (table_fields name_table) <$> filter (λ r, ¬ deleted r) [])).
Proof.
  apply (proj1 (read_dbf_skips_deleted _ simplified_reader)
           _ _ name_table [bytes_of " ABCDEFGHIJ"] [] (bytes_of "*ZZZZZZZZZZ")).
  - apply name_table_wf.
  - reflexivity.
  - reflexivity.
  - reflexivity.
Defined.

Lemma eqb_neq (a c : byte) : a ≠ c -> Byte.eqb a c = false.
Proof.
  intros Hne. destruct (Byte.eqb a c) eqn:He; [|done].
  by apply Byte.byte_dec_bl in He.
Qed.

(** C3, as the claim states it, fails: [born_table] is well formed and has
    the field [BORN] of type [D] between [NAME] and [AGE]; both readers
    return its two records without an entry for [BORN]. *)
Lemma read_dbf_date_field_not_stored :
  well_formed born_table
  /\ table_fields born_table
     = [Field (text "NAME") "C" 4; Field (text "BORN") "D" 8; Field (text "AGE") "N" 3]
  /\ create_simplified_ta_geojson.read_dbf {[ "ta.dbf" := table_bytes born_table ]} "ta.dbf"
     = Returns [ {[ text "NAME" := VStr (text "Anna"); text "AGE" := VInt 41 ]};
                 {[ text "NAME" := VStr (text "Ben"); text "AGE" := VInt 0 ]} ]
  /\ generate_complete_ta_data.read_dbf {[ "ta.dbf" := table_bytes born_table ]} "ta.dbf"
     = Returns [ {[ text "NAME" := VStr (text "Anna"); text "AGE" := VInt 41 ]};
                 {[ text "NAME" := VStr (text "Ben"); text "AGE" := VInt 0 ]} ]
  /\ ({[ text "NAME" := VStr (text "Anna"); text "AGE" := VInt 41 ]} : dict)
       !! text "BORN" = None
  /\ ({[ text "NAME" := VStr (text "Ben"); text "AGE" := VInt 0 ]} : dict)
       !! text "BORN" = None.
Proof.
  split; [apply born_table_wf|].
  repeat split; vm_compute; reflexivity.
Qed.

(** C3, amended. For every well-formed table containing a field whose type
    code is neither [C] nor [N], [read_dbf] does not raise; it returns one
    record for each record not marked deleted, and none of them has an
    entry under that field's name: the field's bytes are skipped. *)
Theorem read_dbf_other_type_not_stored :
  forall (rd : filesystem -> string -> outcome (list dict))
         (fs : filesystem) (filename : string) (t : table) (i : nat) (f : field),
    rd ∈ readers ->
    well_formed t ->
    fs !! filename = Some (table_bytes t) ->
    table_fields t !! i = Some f ->
    field_type f ≠ "C"%byte ->
    field_type f ≠ "N"%byte ->
    exists out,
      rd fs filename = Returns out
      /\ length out = length (filter (λ r, ¬ deleted r) (recs t))
      /\ forall d, d ∈ out -> d !! name f = None.
Proof.
  intros rd fs filename t i f Hrd Hwf Hfs Hi HC HN.
  rewrite (readers_same rd Hrd).
  exists (row (table_fields t) <$> live (recs t)). split; [|split].
  - by apply read_dbf_table.
  - by rewrite length_fmap.
  - intros d Hd. apply list_elem_of_fmap in Hd as (r & -> & _).
    rewrite (row_lookup _ _ i f) by (done || apply Hwf).
    unfold field_value. by rewrite !eqb_neq.
Qed.

Lemma read_dbf_other_type_not_stored_witness :
  exists out,
    create_simplified_ta_geojson.read_dbf
      {[ "ta.dbf" := table_bytes born_table ]} "ta.dbf" = Returns out
    /\ length out = length (filter (λ r, ¬ deleted r) (recs born_table))
    /\ forall d, d ∈ out -> d !! text "BORN" = None.
Proof.
  apply (read_dbf_other_type_not_stored _ _ _ born_table 1
           (Field (text "BORN") "D" 8)).
  - apply simplified_reader.
  - apply born_table_wf.
  - reflexivity.
  - reflexivity.
  - discriminate.
  - discriminate.
Defined.

(** ** Offsets *)

Lemma for_fields_app (fields1 fields2 : list field) (r : list byte)
    (o : nat) (d : dict) :
  for_fields (fields1 ++ fields2) r o d
  = for_fields fields2 r (for_fields fields1 r o d).1 (for_fields fields1 r o d).2.
Proof.
  revert o d. induction fields1 as [|f fields1 IH]; intros o d; [done|].
  by rewrite <- app_comm_cons, !for_fields_cons, IH.
Qed.

Lemma field_loops_same (loop : list field -> list byte -> nat -> dict -> nat * dict) :
  loop ∈ field_loops -> loop = create_simplified_ta_geojson.for_fields.
Proof.
  unfold field_loops. intros H.
  apply elem_of_cons in H as [->|H]; [done|].
  apply list_elem_of_singleton in H as ->. reflexivity.
Qed.

Lemma complete_field_loop : generate_complete_ta_data.for_fields ∈ field_loops.
Proof. apply list_elem_of_further, list_elem_of_here. Defined.

(** C10. While the field loop decodes a record, [offset] starts at 1 and
    grows by the declared length of every field, in declaration order and
    whatever the type code: on reaching field [i] it is 1 plus the sum of
    the declared lengths of the fields before, after field [i] it is that
    plus the length of field [i], and the rest of the loop runs from there.
    So the value stored for field [i] comes from the slice of its declared
    width at that offset, and a field of an unrecognized type consumes its
    bytes like any other. *)
Theorem for_fields_offsets :
  forall (loop : list field -> list byte -> nat -> dict -> nat * dict)
         (fields : list field) (r : list byte) (i : nat) (f : field),
    loop ∈ field_loops ->
    fields !! i = Some f ->
    (loop (take i fields) r 1%nat ∅).1
      = (1 + sum_list (field_len <$> take i fields))%nat
    /\ (loop (take (S i) fields) r 1%nat ∅).1
       = (1 + sum_list (field_len <$> take i fields) + field_len f)%nat
    /\ loop fields r 1%nat ∅
       = loop (drop (S i) fields) r
           (1 + sum_list (field_len <$> take i fields) + field_len f)%nat
           (loop (take (S i) fields) r 1%nat ∅).2
    /\ (NoDup (name <$> fields) ->
        (loop fields r 1%nat ∅).2 !! name f
        = field_value (field_type f)
            (Py.slice r (1 + sum_list (field_len <$> take i fields))
                        (1 + sum_list (field_len <$> take i fields) + field_len f))).
Proof.
  intros loop fields r i f Hloop Hi.
  rewrite (field_loops_same loop Hloop).
  assert (Hafter : (for_fields (take (S i) fields) r 1 ∅).1
                   = (1 + sum_list (field_len <$> take i fields) + field_len f)%nat).
  { rewrite for_fields_offset, (take_S_r _ _ _ Hi), fmap_app, sum_list_with_app.
    simpl. unfold id. lia. }
  split; [apply for_fields_offset|]. split; [exact Hafter|]. split.
  - rewrite <- (take_drop (S i) fields) at 1.
    by rewrite for_fields_app, Hafter.
  - intros Hnd. apply (row_lookup fields r i f Hnd Hi).
Qed.

Lemma for_fields_offsets_witness :
  let fields := [Field (text "NAME") "C" 4; Field (text "BORN") "D" 8;
                 Field (text "AGE") "N" 3] in
  let r := bytes_of " Anna19840229 41" in
  (generate_complete_ta_data.for_fields (take 2 fields) r 1%nat ∅).1 = 13%nat
  /\ (generate_complete_ta_data.for_fields (take 3 fields) r 1%nat ∅).1 = 16%nat
  /\ generate_complete_ta_data.for_fields fields r 1%nat ∅
     = generate_complete_ta_data.for_fields (drop 3 fields) r 16%nat
         (generate_complete_ta_data.for_fields (take 3 fields) r 1%nat ∅).2
  /\ (generate_complete_ta_data.for_fields fields r 1%nat ∅).2 !! text "AGE"
     = field_value "N" (Py.slice r 13 16).
Proof.
  intros fields r.
  destruct (for_fields_offsets _ fields r 2 (Field (text "AGE") "N" 3)
              complete_field_loop eq_refl) as (Hat & Hafter & Hrest & Hvalue).
  split; [exact Hat|]. split; [exact Hafter|]. split; [exact Hrest|].
  apply Hvalue. apply (bool_decide_unpack _). vm_compute. exact I.
Defined.

(** ** Replacing the bytes of one field *)

Lemma length_with_field (r : list byte) (off len : nat) (payload : list byte) :
  (off + len <= length r)%nat -> length payload = len ->
  length (with_field r off len payload) = length r.
Proof.
  intros Hr Hp. unfold with_field.
  rewrite !length_app, length_take, length_drop. lia.
Qed.

Lemma with_field_lookup_out (r : list byte) (off len : nat) (payload : list byte) (i : nat) :
  (off + len <= length r)%nat -> length payload = len ->
  (i < off)%nat \/ (off + len <= i)%nat ->
  with_field r off len payload !! i = r !! i.
Proof.
  intros Hr Hp Hi. unfold with_field.
  assert (Htake : length (take off r) = off) by (rewrite length_take; lia).
  destruct Hi as [Hi|Hi].
  - rewrite lookup_app_l by lia. by rewrite lookup_take_lt.
  - rewrite lookup_app_r by lia. rewrite lookup_app_r by lia.
    rewrite lookup_drop. f_equal. lia.
Qed.

Lemma slice_ext (l1 l2 : list byte) (a c : nat) :
  (forall i, (a <= i < c)%nat -> l1 !! i = l2 !! i) ->
  Py.slice l1 a c = Py.slice l2 a c.
Proof.
  intros Hext. unfold Py.slice. apply list_eq. intros j.
  destruct (decide (j < c - a)%nat).
  - rewrite !lookup_take_lt, !lookup_drop by done. apply Hext. lia.
  - by rewrite !lookup_take_ge by lia.
Qed.

Lemma slice_with_field_out (r : list byte) (off len : nat) (payload : list byte) (a c : nat) :
  (off + len <= length r)%nat -> length payload = len ->
  (c <= off)%nat \/ (off + len <= a)%nat ->
  Py.slice (with_field r off len payload) a c = Py.slice r a c.
Proof.
  intros Hr Hp Hout. apply slice_ext. intros i Hi.
  apply with_field_lookup_out; [done|done|lia].
Qed.

Lemma sum_take_le (l : list nat) (a c : nat) :
  (a <= c)%nat -> (sum_list (take a l) <= sum_list (take c l))%nat.
Proof.
  intros Hac. replace c with (a + (c - a))%nat by lia.
  rewrite <- take_take_drop, sum_list_with_app. lia.
Qed.

Lemma field_offset_next (fields : list field) (i : nat) (f : field) :
  fields !! i = Some f ->
  field_offset fields (S i) = (field_offset fields i + field_len f)%nat.
Proof.
  intros Hi. unfold field_offset.
  rewrite (take_S_r _ _ _ Hi), fmap_app, sum_list_with_app. simpl. unfold id. lia.
Qed.

Lemma field_offset_mono (fields : list field) (i j : nat) :
  (i <= j)%nat -> (field_offset fields i <= field_offset fields j)%nat.
Proof.
  intros Hij. unfold field_offset. rewrite !fmap_take.
  pose proof (sum_take_le (field_len <$> fields) i j Hij). lia.
Qed.

Lemma field_offset_end (fields : list field) (i : nat) :
  (field_offset fields i <= 1 + sum_list (field_len <$> fields))%nat.
Proof.
  unfold field_offset. rewrite fmap_take.
  pose proof (sum_take_le (field_len <$> fields) i (length (field_len <$> fields))) as H.
  rewrite (take_ge _ (length _)) in H by done.
  destruct (decide (i <= length (field_len <$> fields))%nat) as [Hi|Hi]; [lia|].
  rewrite take_ge by lia. lia.
Qed.

Lemma wf_with_recs (t : table) (rs : list (list byte)) :
  well_formed t ->
  length rs = length (recs t) ->
  Forall (λ r, Z.of_nat (length r) = hdr_record_len (hdr t)) rs ->
  well_formed (with_recs t rs).
Proof.
  intros [Hhdr Hnum Hhl Hrl Hds Hnd Hrs] Hlen Hall.
  split; cbn [with_recs hdr descs recs trailer]; try done.
  by rewrite Hlen.
Qed.

Lemma deleted_with_field (r : list byte) (off len : nat) (payload : list byte) :
  (1 <= off)%nat -> (off <= length r)%nat ->
  deleted (with_field r off len payload) = deleted r.
Proof.
  intros Hoff Hr. unfold with_field.
  destruct r as [|c r]; [simpl in Hr; lia|].
  destruct off as [|off]; [lia|done].
Qed.

(** ** The row of one live record *)

Lemma read_dbf_row_at (fs : filesystem) (filename : string) (t : table)
    (before after : list (list byte)) (r : list byte) :
  well_formed t ->
  fs !! filename = Some (table_bytes t) ->
  recs t = before ++ r :: after ->
  deleted r = false ->
  read_dbf fs filename
  = Returns ((row (table_fields t) <$> live before)
             ++ row (table_fields t) r :: (row (table_fields t) <$> live after)).
Proof.
  intros Hwf Hfs Hrecs Hlive.
  rewrite (read_dbf_table _ _ t) by done.
  by rewrite Hrecs, live_app, live_cons, Hlive, fmap_app, fmap_cons.
Qed.

Lemma wf_record_length (t : table) (before after : list (list byte)) (r : list byte) :
  well_formed t ->
  recs t = before ++ r :: after ->
  length r = (1 + sum_list (field_len <$> table_fields t))%nat.
Proof.
  intros Hwf Hrecs. pose proof (wf_recs t Hwf) as Hall.
  rewrite Hrecs, Forall_app, Forall_cons in Hall.
  destruct Hall as (_ & Hr & _). rewrite (wf_record_len t Hwf) in Hr. lia.
Qed.

Lemma row_with_field_other (fields : list field) (r payload : list byte)
    (i : nat) (f : field) (k : pystr) :
  NoDup (name <$> fields) ->
  fields !! i = Some f ->
  length r = (1 + sum_list (field_len <$> fields))%nat ->
  length payload = field_len f ->
  k ≠ name f ->
  row fields (with_field r (field_offset fields i) (field_len f) payload) !! k
  = row fields r !! k.
Proof.
  intros Hnd Hi Hr Hp Hk.
  assert (Hin : (field_offset fields i + field_len f <= length r)%nat).
  { rewrite <- (field_offset_next _ _ _ Hi), Hr. apply field_offset_end. }
  destruct (decide (k ∈ name <$> fields)) as [Hmem|Hmem].
  - apply list_elem_of_fmap in Hmem as (g & -> & Hg).
    apply list_elem_of_lookup in Hg as (j & Hj).
    rewrite !(row_lookup _ _ j g) by done. f_equal.
    apply slice_with_field_out; [done|done|].
    destruct (Nat.lt_total j i) as [Hlt|[->|Hgt]].
    + left. rewrite <- (field_offset_next _ _ _ Hj). by apply field_offset_mono.
    + congruence.
    + right. rewrite <- (field_offset_next _ _ _ Hi). by apply field_offset_mono.
  - by rewrite !row_lookup_other.
Qed.

(** ** Stripping *)

Lemma lstrip_app_all {A} (p : A -> bool) (lead rest : list A) :
  Forall (λ c, p c = true) lead -> Py.lstrip p (lead ++ rest) = Py.lstrip p rest.
Proof.
  induction 1 as [|c lead Hc _ IH]; [done|]. simpl. by rewrite Hc.
Qed.

Lemma lstrip_head {A} (p : A -> bool) (s : list A) :
  (forall c, head s = Some c -> p c = false) -> Py.lstrip p s = s.
Proof.
  destruct s as [|c s]; [done|]. intros Hc. simpl. by rewrite (Hc c).
Qed.

Lemma strip_padded {A} (p : A -> bool) (lead body trail : list A) :
  Forall (λ c, p c = true) lead ->
  Forall (λ c, p c = true) trail ->
  (forall c, head body = Some c -> p c = false) ->
  (forall c, last body = Some c -> p c = false) ->
  Py.strip p (lead ++ body ++ trail) = body.
Proof.
  intros Hlead Htrail Hhead Hlast. unfold Py.strip, Py.rstrip.
  rewrite lstrip_app_all by done.
  destruct body as [|c body].
  - simpl. by rewrite <- (app_nil_r trail), lstrip_app_all.
  - rewrite (lstrip_head p ((c :: body) ++ trail)) by (intros c' [= <-]; by apply Hhead).
    rewrite reverse_app, lstrip_app_all by (by apply Forall_reverse).
    rewrite lstrip_head; [apply reverse_involutive|].
    intros c' Hc'. apply Hlast. by rewrite <- head_reverse.
Qed.

Lemma is_space_uspace (c : byte) :
  Py.is_space c = true -> Py.is_uspace (Z.to_N (Py.ord c)) = true.
Proof.
  unfold Py.is_space, Py.is_uspace. pose proof (ord_range c) as Hc.
  rewrite Z2N.id by lia. intros H.
  apply orb_true_iff in H as [H|H].
  - by rewrite H.
  - apply Z.eqb_eq in H. by rewrite H.
Qed.

Lemma utf8_decode_ascii (ignore : bool) (s : list byte) :
  Forall (λ c, Py.ord c < 128) s ->
  Py.utf8_decode ignore s = Some ((λ c, Z.to_N (Py.ord c)) <$> s).
Proof.
  induction 1 as [|c s Hc _ IH]; [done|].
  cbn [Py.utf8_decode]. apply Z.ltb_lt in Hc. by rewrite Hc, IH.
Qed.

(** A Character field holding ASCII text between blanks decodes to the
    text. *)
Lemma character_value_padded (lead body trail : list byte) :
  Forall (λ c, Py.is_space c = true) lead ->
  Forall (λ c, Py.is_space c = true) trail ->
  Forall (λ c, Py.ord c < 128) body ->
  (forall c, head body = Some c -> Py.is_uspace (Z.to_N (Py.ord c)) = false) ->
  (forall c, last body = Some c -> Py.is_uspace (Z.to_N (Py.ord c)) = false) ->
  Py.str_strip (Py.decode_ignore (Py.bytes_strip (lead ++ body ++ trail)))
  = (λ c, Z.to_N (Py.ord c)) <$> body.
Proof.
  intros Hlead Htrail Hascii Hhead Hlast.
  assert (Hnot : forall c, Py.is_uspace (Z.to_N (Py.ord c)) = false ->
                           Py.is_space c = false).
  { intros c Hc. destruct (Py.is_space c) eqn:Hs; [|done].
    apply is_space_uspace in Hs. congruence. }
  unfold Py.bytes_strip. rewrite strip_padded by eauto.
  unfold Py.decode_ignore. rewrite utf8_decode_ascii by done. cbn [default].
  unfold Py.str_strip.
  pose proof (strip_padded Py.is_uspace [] ((λ c, Z.to_N (Py.ord c)) <$> body) [])
    as Hstrip.
  rewrite app_nil_r, app_nil_l in Hstrip. apply Hstrip; [done|done| |].
  - intros c Hc.
    destruct body as [|c0 body]; [done|]. injection Hc as <-. by apply Hhead.
  - intros c Hc. rewrite fmap_last in Hc.
    destruct (last body) as [c0|] eqn:Hc0; [|done]. injection Hc as <-. by apply Hlast.
Qed.

(** C8, as the claim states it, fails: [padded_table] is well formed, its
    field [NAME] is stored as two blanks followed by [ABCDEFGH], and both
    readers return [ABCDEFGH], without the leading blanks; removing
    trailing whitespace only would leave the text as stored. *)
Lemma read_dbf_strips_leading_whitespace :
  well_formed padded_table
  /\ table_fields padded_table = [Field (text "NAME") "C" 10]
  /\ recs padded_table = [bytes_of " " ++ bytes_of "  ABCDEFGH"]
  /\ create_simplified_ta_geojson.read_dbf
       {[ "ta.dbf" := table_bytes padded_table ]} "ta.dbf"
     = Returns [ {[ text "NAME" := VStr (text "ABCDEFGH") ]} ]
  /\ generate_complete_ta_data.read_dbf
       {[ "ta.dbf" := table_bytes padded_table ]} "ta.dbf"
     = Returns [ {[ text "NAME" := VStr (text "ABCDEFGH") ]} ]
  /\ Py.rstrip Py.is_uspace (Py.decode_ignore (bytes_of "  ABCDEFGH"))
     = text "  ABCDEFGH"
  /\ text "  ABCDEFGH" ≠ text "ABCDEFGH".
Proof.
  split; [apply padded_table_wf|].
  repeat split; try (vm_compute; reflexivity). vm_compute. discriminate.
Qed.

(** C8, amended. For every Character ([C]) field in a record not marked
    deleted, the decoded value is the field's stored bytes with whitespace
    stripped at both ends, leading as well as trailing, decoded as UTF-8
    with undecodable bytes dropped, and stripped of whitespace at both ends
    again.  When the stored bytes are ASCII text between blanks, the text
    neither starting nor ending with whitespace, the value is that text:
    nothing else is removed. *)
Theorem read_dbf_character_field :
  forall (rd : filesystem -> string -> outcome (list dict))
         (fs : filesystem) (filename : string) (t : table)
         (before after : list (list byte)) (r : list byte) (i : nat) (f : field),
    rd ∈ readers ->
    well_formed t ->
    fs !! filename = Some (table_bytes t) ->
    recs t = before ++ r :: after ->
    deleted r = false ->
    table_fields t !! i = Some f ->
    field_type f = "C"%byte ->
    let fields := table_fields t in
    let off := (1 + sum_list (field_len <$> take i fields))%nat in
    let raw := Py.slice r off (off + field_len f) in
    let rows := fun rs => row fields <$> filter (λ r, ¬ deleted r) rs in
    exists d,
      rd fs filename = Returns (rows before ++ d :: rows after)
      /\ d !! name f
         = Some (VStr (Py.strip Py.is_uspace
                         (Py.decode_ignore (Py.strip Py.is_space raw))))
      /\ forall lead body trail : list byte,
           raw = lead ++ body ++ trail ->
           Forall (λ c, Py.is_space c = true) lead ->
           Forall (λ c, Py.is_space c = true) trail ->
           Forall (λ c, Py.ord c < 128) body ->
           (forall c, head body = Some c -> Py.is_uspace (Z.to_N (Py.ord c)) = false) ->
           (forall c, last body = Some c -> Py.is_uspace (Z.to_N (Py.ord c)) = false) ->
           d !! name f = Some (VStr ((λ c, Z.to_N (Py.ord c)) <$> body)).
Proof.
  intros rd fs filename t before after r i f Hrd Hwf Hfs Hrecs Hlive Hi Hty.
  intros fields off raw rows. subst rows raw off fields.
  fold (field_offset (table_fields t) i).
  rewrite (readers_same rd Hrd).
  assert (Hval : row (table_fields t) r !! name f
                 = Some (VStr (Py.strip Py.is_uspace
                     (Py.decode_ignore
                        (Py.strip Py.is_space
                           (Py.slice r (field_offset (table_fields t) i)
                              (field_offset (table_fields t) i + field_len f))))))).
  { rewrite (row_lookup _ _ i f) by (done || apply Hwf).
    unfold field_value. by rewrite Hty. }
  exists (row (table_fields t) r). split; [|split].
  - by apply read_dbf_row_at.
  - exact Hval.
  - intros lead body trail Hraw Hlead Htrail Hascii Hhead Hlast.
    rewrite Hval, Hraw. do 2 f_equal.
    by apply character_value_padded.
Qed.

Lemma read_dbf_character_field_witness :
  let fields := table_fields padded_table in
  let rows := fun rs => row fields <$> filter (λ r, ¬ deleted r) rs in
  exists d,
    generate_complete_ta_data.read_dbf
      {[ "ta.dbf" := table_bytes padded_table ]} "ta.dbf"
    = Returns (rows [] ++ d :: rows [])
    /\ d !! text "NAME"
       = Some (VStr (Py.strip Py.is_uspace
                       (Py.decode_ignore (Py.strip Py.is_space (bytes_of "  ABCDEFGH")))))
    /\ d !! text "NAME" = Some (VStr (text "ABCDEFGH")).
Proof.
  intros fields rows.
  destruct (read_dbf_character_field _ {[ "ta.dbf" := table_bytes padded_table ]}
              "ta.dbf" padded_table [] [] (bytes_of "   ABCDEFGH") 0
              (Field (text "NAME") "C" 10)
              complete_reader padded_table_wf (lookup_singleton_eq _ _)
              eq_refl eq_refl eq_refl eq_refl)
    as (d & Hout & Hval & Hpadded).
  exists d. split; [exact Hout|]. split; [exact Hval|].
  apply (Hpadded (bytes_of "  ") (bytes_of "ABCDEFGH") []).
  - reflexivity.
  - repeat constructor.
  - constructor.
  - repeat constructor.
  - intros c [= <-]. reflexivity.
  - intros c [= <-]. reflexivity.
Defined.

(** ** Further properties of the reader *)

Lemma for_records_length (n : nat) :
  forall (rl : nat) (fields : list field) (acc out : list dict) (f f' : file),
    for_records n rl fields acc f = Returns (out, f') ->
    (length out <= length acc + n)%nat.
Proof.
  induction n as [|n IH]; intros rl fields acc out f f' Hret.
  - injection Hret as <- _. lia.
  - cbn [for_records] in Hret. unfold bind at 1, read in Hret.
    set (data := take rl _) in Hret.
    destruct (data !! 0%nat) as [c|] eqn:Hc;
      [|unfold bind in Hret; by rewrite index_None in Hret].
    unfold bind at 1 in Hret. rewrite (index_Some _ _ _ _ Hc) in Hret.
    destruct (Byte.eqb c x2a); apply IH in Hret; [lia|].
    rewrite length_app in Hret. simpl in Hret. lia.
Qed.

Lemma read_dbf_returns_bound (fs : filesystem) (filename : string)
    (src : list byte) (out : list dict) :
  fs !! filename = Some src ->
  read_dbf fs filename = Returns out ->
  (12 <= length src)%nat
  /\ (length out <= Z.to_nat (hdr_num_records (take 32 src)))%nat.
Proof.
  intros Hfs Hret.
  assert (Hlen : (12 <= length src)%nat).
  { destruct (decide (12 <= length src)%nat) as [|Hshort]; [done|].
    rewrite (read_dbf_short_header fs filename src) in Hret by (done || lia).
    discriminate. }
  split; [done|].
  unfold read_dbf, with_open in Hret. rewrite Hfs in Hret.
  unfold bind at 1 in Hret. rewrite read_header in Hret.
  assert (Hh : (12 <= length (take 32 src))%nat) by (rewrite length_take; lia).
  unfold bind at 1 in Hret. rewrite unpack_exact in Hret by (rewrite length_slice; lia).
  unfold bind at 1 in Hret. rewrite unpack_exact in Hret by (rewrite length_slice; lia).
  unfold bind at 1 in Hret. rewrite unpack_exact in Hret by (rewrite length_slice; lia).
  unfold bind at 1, seek at 1 in Hret. unfold bind at 1 in Hret.
  destruct (while_fields _ _ _ _) as [[fields f']|e|]; [|done|done].
  unfold bind at 1, seek at 1 in Hret.
  destruct (for_records _ _ _ _ _) as [[out' f'']|e|] eqn:Hloop; [|done|done].
  injection Hret as <-. apply for_records_length in Hloop.
  unfold hdr_num_records. simpl in Hloop. lia.
Qed.

(** The descriptor loop on descriptors followed by the terminator, when
    the header is longer than they need: the loop reads the terminator and
    leaves by [break]. *)
Lemma while_fields_terminator (ds : list (list byte)) :
  Forall wf_desc ds ->
  forall (fuel : nat) (pre post : list byte) (acc : list field) (hl : Z),
    (length ds < fuel)%nat ->
    Z.of_nat (length pre) + 32 * Z.of_nat (length ds) + 1 < hl ->
    exists p,
      while_fields fuel hl acc (File (pre ++ concat ds ++ x0d :: post) (length pre))
      = Returns (acc ++ omap field_of ds, File (pre ++ concat ds ++ x0d :: post) p).
Proof.
  induction 1 as [|d ds (Hlen & Hterm & [fld Hfld]) Hds IH];
    intros fuel pre post acc hl Hfuel Hhl;
    (destruct fuel as [|fuel]; [simpl in Hfuel; lia|]).
  - cbn [while_fields]. unfold bind at 1, tell; cbn [pos].
    replace (_ <? _) with true by (symmetry; apply Z.ltb_lt; simpl in Hhl; lia).
    unfold bind at 1, read; cbn [content pos concat app].
    rewrite drop_app_length. cbn [take].
    unfold bind at 1. rewrite (index_Some _ 0 x0d) by done.
    cbn [Byte.eqb]. rewrite app_nil_r. unfold ret. by eexists.
  - cbn [while_fields]. unfold bind at 1. unfold tell; cbn [pos].
    replace (_ <? _) with true by (symmetry; apply Z.ltb_lt; rewrite length_cons in Hhl; lia).
    cbn [concat]. rewrite <- (app_assoc d).
    unfold bind at 1. rewrite <- Hlen, read_middle.
    destruct (d !! 0%nat) as [c|] eqn:Hc;
      [|apply lookup_ge_None in Hc; lia].
    unfold bind at 1. rewrite (index_Some _ _ _ _ Hc).
    destruct (Byte.eqb c x0d) eqn:Hcd;
      [apply Byte.byte_dec_bl in Hcd; congruence|].
    unfold field_of in Hfld.
    destruct (Py.utf8_decode false _) as [nm|] eqn:Hnm; [|done].
    destruct (d !! 11%nat) as [ty|] eqn:Hty; [|done].
    destruct (d !! 16%nat) as [ln|] eqn:Hln; [|done].
    simpl in Hfld. injection Hfld as <-.
    unfold bind at 1. unfold decode. rewrite Hnm. unfold ret at 1.
    unfold bind at 1. rewrite (index_Some _ _ _ _ Hty).
    unfold bind at 1. rewrite (index_Some _ _ _ _ Hln).
    rewrite <- length_app. rewrite (app_assoc pre d).
    destruct (IH fuel (pre ++ d) post
                (acc ++ [Field nm ty (Z.to_nat (Py.ord ln))]) hl) as [p Hp].
    { simpl in Hfuel. lia. }
    { rewrite length_app, length_cons in *. lia. }
    exists p. rewrite Hp.
    cbn [omap list_omap]. unfold field_of at 2. rewrite Hnm, Hty, Hln. simpl.
    by rewrite <- app_assoc.
Qed.

Lemma read_dbf_gap_table (fs : filesystem) (filename : string) (t : table)
    (gap : list byte) :
  well_formed_gap t gap ->
  fs !! filename = Some (gap_table_bytes t gap) ->
  read_dbf fs filename = Returns (row (table_fields t) <$> live (recs t)).
Proof.
  intros [Hhdr Hnum Hhl Hrl Hds Hrs] Hfs.
  unfold read_dbf, with_open. rewrite Hfs. unfold gap_table_bytes.
  unfold bind at 1. rewrite read_start by done.
  unfold bind at 1. rewrite unpack_exact by (rewrite length_slice; lia).
  unfold bind at 1. rewrite unpack_exact by (rewrite length_slice; lia).
  unfold bind at 1. rewrite unpack_exact by (rewrite length_slice; lia).
  fold (hdr_num_records (hdr t)) (hdr_header_len (hdr t)) (hdr_record_len (hdr t)).
  unfold bind at 1. unfold seek at 1. cbn [content].
  rewrite <- Hhdr. unfold bind at 1.
  assert (Hfields : exists p,
    while_fields (S (Z.to_nat (hdr_header_len (hdr t)))) (hdr_header_len (hdr t)) []
      (File (hdr t ++ concat (descs t) ++ [x0d] ++ gap ++ concat (recs t) ++ trailer t)
            (length (hdr t)))
    = Returns (table_fields t,
               File (hdr t ++ concat (descs t) ++ [x0d] ++ gap
                     ++ concat (recs t) ++ trailer t) p)).
  { destruct gap as [|g gap].
    - exists (length (hdr t) + 32 * length (descs t))%nat.
      rewrite Hhl. simpl length.
      replace (33 + 32 * Z.of_nat (length (descs t)) + Z.of_nat 0)
        with (Z.of_nat (length (hdr t)) + 32 * Z.of_nat (length (descs t)) + 1) by lia.
      by rewrite while_fields_descs by (done || lia).
    - apply (while_fields_terminator (descs t) Hds _ (hdr t) _ []).
      + lia.
      + rewrite Hhl, length_cons. lia. }
  destruct Hfields as [p ->].
  unfold bind at 1. unfold seek at 1. cbn [content].
  rewrite Hnum, Nat2Z.id.
  assert (Hrl' : (0 < Z.to_nat (hdr_record_len (hdr t)))%nat) by lia.
  pose proof (for_records_block (table_fields t) _ (recs t) Hrl') as Hloop.
  specialize (Hloop ltac:(eapply Forall_impl; [exact Hrs|]; simpl; intros; lia)).
  specialize (Hloop (hdr t ++ concat (descs t) ++ [x0d] ++ gap) (trailer t) []).
  rewrite <- !app_assoc in Hloop.
  replace (Z.to_nat (hdr_header_len (hdr t)))
    with (length (hdr t ++ concat (descs t) ++ [x0d] ++ gap)).
  - by rewrite Hloop.
  - rewrite Hhl, !length_app, length_concat_descs by done. simpl. lia.
Qed.

(** *** The keys of a row *)

Lemma stored_field_value (f : field) (raw : list byte) :
  is_Some (field_value (field_type f) raw) <-> stored f = true.
Proof.
  unfold field_value, stored.
  destruct (Byte.eqb (field_type f) "C"); [by split; eauto|].
  destruct (Byte.eqb (field_type f) "N"); [by split; eauto|].
  split; [by intros [? ?]|done].
Qed.

Lemma for_fields_dom (fields : list field) (r : list byte) (o : nat) (d : dict) :
  dom (for_fields fields r o d).2
  = dom d ∪ list_to_set (name <$> filter (λ f, stored f) fields).
Proof.
  revert o d. induction fields as [|f fields IH]; intros o d.
  - cbn. by rewrite (right_id_L ∅ (∪)).
  - rewrite for_fields_cons, IH. unfold store.
    pose proof (stored_field_value f (Py.slice r o (o + field_len f))) as Hst.
    destruct (field_value _ _) as [v|].
    + rewrite filter_cons_True by (apply Is_true_true, Hst; eauto).
      rewrite dom_insert_L, fmap_cons, list_to_set_cons.
      by rewrite (comm_L (∪) {[name f]} (dom d)), <- (assoc_L (∪)).
    + rewrite filter_cons_False; [done|].
      intros Hs. apply Is_true_true, Hst in Hs. by destruct Hs.
Qed.

(** Fields after which no stored field has the key [k] leave the entry
    under [k] alone. *)
Lemma for_fields_lookup_unstored (fields : list field) (r : list byte)
    (o : nat) (d : dict) (k : pystr) :
  Forall (λ g, stored g = true -> name g ≠ k) fields ->
  (for_fields fields r o d).2 !! k = d !! k.
Proof.
  intros Hall. revert o d.
  induction Hall as [|g fields Hg _ IH]; intros o d; [done|].
  rewrite for_fields_cons, IH. unfold store.
  pose proof (stored_field_value g (Py.slice r o (o + field_len g))) as Hst.
  destruct (field_value _ _) as [v|]; [|done].
  rewrite lookup_insert_ne; [done|]. apply Hg, Hst. eauto.
Qed.

Lemma row_last_stored (fields1 fields2 : list field) (f : field) (r : list byte) :
  stored f = true ->
  Forall (λ g, stored g = true -> name g ≠ name f) fields2 ->
  row (fields1 ++ f :: fields2) r !! name f
  = field_value (field_type f)
      (Py.slice r (1 + sum_list (field_len <$> fields1))
                  (1 + sum_list (field_len <$> fields1) + field_len f)).
Proof.
  intros Hst Hlater. unfold row.
  rewrite for_fields_app, for_fields_cons, for_fields_lookup_unstored by done.
  rewrite for_fields_offset, store_lookup.
  destruct (proj2 (stored_field_value f
              (Py.slice r (1 + sum_list (field_len <$> fields1))
                 (1 + sum_list (field_len <$> fields1) + field_len f))) Hst)
    as [v Hv].
  by rewrite Hv.
Qed.

(** *** Integers in Numeric fields *)

Lemma digit_byte_ord (d : Z) : 0 <= d < 10 -> Py.ord (digit_byte d) = 48 + d.
Proof.
  intros Hd.
  assert (Hcases : d = 0 \/ d = 1 \/ d = 2 \/ d = 3 \/ d = 4
                   \/ d = 5 \/ d = 6 \/ d = 7 \/ d = 8 \/ d = 9) by lia.
  repeat (destruct Hcases as [->|Hcases]; [reflexivity|]).
  by subst d.
Qed.

Lemma is_digit_ord (c : byte) : Py.is_digit c = true <-> 48 <= Py.ord c <= 57.
Proof.
  unfold Py.is_digit. rewrite andb_true_iff, !Z.leb_le. tauto.
Qed.

Lemma eqb_ord (c x : byte) : Py.ord c ≠ Py.ord x -> Byte.eqb c x = false.
Proof. intros Hne. apply eqb_neq. by intros ->. Qed.

Lemma is_digit_not_space (c : byte) : Py.is_digit c = true -> Py.is_space c = false.
Proof.
  rewrite is_digit_ord. intros Hc. unfold Py.is_space.
  apply orb_false_iff. split.
  - apply andb_false_iff. right. apply Z.leb_gt. lia.
  - apply Z.eqb_neq. lia.
Qed.

Lemma int_digits_all (ds : list byte) :
  Forall (λ c, Py.is_digit c = true) ds ->
  forall a, Py.int_digits false a ds
            = Some (fold_left (λ a c, 10 * a + (Py.ord c - 48)) ds a).
Proof.
  induction 1 as [|c ds Hc _ IH]; intros a; [done|].
  cbn [Py.int_digits fold_left].
  pose proof (proj1 (is_digit_ord c) Hc) as Hrange.
  rewrite eqb_ord by (change (Py.ord "_") with 95; lia).
  unfold Py.digit.
  replace ((48 <=? Py.ord c) && (Py.ord c <=? 57)) with true
    by (symmetry; apply andb_true_iff; rewrite !Z.leb_le; lia).
  apply IH.
Qed.

Lemma digits_acc_spec (fuel : nat) :
  forall (n : Z) (acc : list byte),
    0 <= n < Z.of_nat fuel ->
    exists ds, digits_acc fuel n acc = ds ++ acc
               /\ ds ≠ []
               /\ Forall (λ c, Py.is_digit c = true) ds
               /\ fold_left (λ a c, 10 * a + (Py.ord c - 48)) ds 0 = n.
Proof.
  induction fuel as [|fuel IH]; intros n acc Hn; [lia|].
  cbn [digits_acc].
  assert (Hmod : 0 <= n mod 10 < 10) by (apply Z.mod_pos_bound; lia).
  assert (Hd : Py.is_digit (digit_byte (n mod 10)) = true).
  { apply is_digit_ord. rewrite digit_byte_ord by done. lia. }
  destruct (Z.ltb_spec n 10) as [Hsmall|Hbig].
  - exists [digit_byte (n mod 10)]. split; [done|]. split; [done|].
    split; [by constructor|]. simpl.
    rewrite digit_byte_ord by done. rewrite Z.mod_small by lia. lia.
  - assert (Hdiv : 0 <= n / 10 < Z.of_nat fuel).
    { split; [apply Z.div_pos; lia|].
      apply Z.div_lt_upper_bound; lia. }
    destruct (IH (n / 10) (digit_byte (n mod 10) :: acc) Hdiv)
      as (ds & Heq & Hne & Hall & Hval).
    exists (ds ++ [digit_byte (n mod 10)]). split; [|split; [|split]].
    + by rewrite Heq, <- app_assoc.
    + by destruct ds.
    + apply Forall_app. split; [done|by constructor].
    + rewrite fold_left_app, Hval. simpl. rewrite digit_byte_ord by done.
      pose proof (Z.div_mod n 10). lia.
Qed.

(** [int] reads back what [str] writes, between blanks. *)
Lemma int_repr_int (z : Z) (lead trail : list byte) :
  Forall (λ c, Py.is_space c = true) lead ->
  Forall (λ c, Py.is_space c = true) trail ->
  Py.bytes_strip (lead ++ repr_int z ++ trail) = repr_int z
  /\ Py.contains "." (repr_int z) = false
  /\ Py.int (repr_int z) = Some z.
Proof.
  intros Hlead Htrail.
  assert (Hshape : exists ds sign,
    repr_int z = sign ++ ds /\ ds ≠ []
    /\ Forall (λ c, Py.is_digit c = true) ds
    /\ ((sign = [] /\ fold_left (λ a c, 10 * a + (Py.ord c - 48)) ds 0 = z)
        \/ (sign = ["-"%byte]
            /\ fold_left (λ a c, 10 * a + (Py.ord c - 48)) ds 0 = - z))).
  { unfold repr_int. destruct (Z.ltb_spec z 0) as [Hneg|Hpos].
    - destruct (digits_acc_spec (S (Z.to_nat (- z))) (- z) []) as (ds & Heq & Hne & Hall & Hval);
        [lia|].
      exists ds, ["-"%byte]. rewrite Heq, app_nil_r. eauto 10.
    - destruct (digits_acc_spec (S (Z.to_nat z)) z []) as (ds & Heq & Hne & Hall & Hval);
        [lia|].
      exists ds, []. rewrite Heq, app_nil_r. eauto 10. }
  destruct Hshape as (ds & sign & Hrepr & Hne & Hall & Hsign).
  destruct ds as [|c ds]; [done|]. clear Hne.
  pose proof (Forall_inv Hall) as Hc. cbn beta in Hc.
  pose proof (proj1 (is_digit_ord c) Hc) as Hrange.
  assert (Hlast : forall c', last (c :: ds) = Some c' -> Py.is_space c' = false).
  { intros c' Hc'. apply is_digit_not_space.
    apply last_Some_elem_of in Hc'. by eapply (proj1 (Forall_forall _ _) Hall). }
  assert (Hnodot : Py.contains "." (c :: ds) = false).
  { unfold Py.contains. apply not_true_iff_false. intros Hex.
    apply existsb_exists in Hex as (c' & Hin & Heq).
    apply Byte.byte_dec_bl in Heq. subst c'.
    apply list_elem_of_In in Hin.
    pose proof (proj1 (Forall_forall _ _) Hall _ Hin) as Hd.
    apply is_digit_ord in Hd. change (Py.ord ".") with 46 in Hd. lia. }
  assert (Hint : Py.int_digits false 0 (c :: ds)
                 = Some (fold_left (λ a c, 10 * a + (Py.ord c - 48)) (c :: ds) 0))
    by (by apply int_digits_all).
  rewrite Hrepr.
  destruct Hsign as [[-> Hval]|[-> Hval]]; cbn [app].
  - split; [|split].
    + unfold Py.bytes_strip.
      apply (strip_padded Py.is_space lead (c :: ds) trail); [done|done| |done].
      intros c' [= <-]. by apply is_digit_not_space.
    + done.
    + unfold Py.int, Py.bytes_strip.
      pose proof (strip_padded Py.is_space [] (c :: ds) []) as Hstrip.
      rewrite app_nil_r, app_nil_l in Hstrip. rewrite Hstrip;
        [|done|done|intros c' [= <-]; by apply is_digit_not_space|done].
      unfold Py.split_sign.
      rewrite !eqb_ord by (change (Py.ord "+") with 43; change (Py.ord "-") with 45; lia).
      rewrite eqb_ord by (change (Py.ord "_") with 95; lia).
      rewrite Hint, Hval. done.
  - assert (Hlast' : forall c', last ("-"%byte :: c :: ds) = Some c'
                               -> Py.is_space c' = false).
    { intros c' Hc'. rewrite last_cons_cons in Hc'. by apply Hlast. }
    split; [|split].
    + unfold Py.bytes_strip.
      apply (strip_padded Py.is_space lead ("-"%byte :: c :: ds) trail); [done|done| |done].
      by intros c' [= <-].
    + change (Py.contains "." ("-"%byte :: c :: ds))
        with (Byte.eqb "." "-" || Py.contains "." (c :: ds)).
      by rewrite Hnodot.
    + unfold Py.int, Py.bytes_strip.
      pose proof (strip_padded Py.is_space [] ("-"%byte :: c :: ds) []) as Hstrip.
      rewrite app_nil_r, app_nil_l in Hstrip. rewrite Hstrip;
        [|done|done|by intros c' [= <-]|done].
      unfold Py.split_sign.
      change (Byte.eqb "-" "+") with false. change (Byte.eqb "-" "-") with true.
      cbn iota.
      rewrite eqb_ord by (change (Py.ord "_") with 95; lia).
      rewrite Hint, Hval. simpl. f_equal. lia.
Qed.

(** ** The GeoJSON script *)

Import create_simplified_ta_geojson_script.

Lemma create_rectangle_polygon_Some {A} (bs : list A) :
  length bs = 4%nat -> is_Some (create_rectangle_polygon bs).
Proof.
  intros Hlen. do 5 (destruct bs as [|? bs]; try done).
Qed.

Lemma bounds_of_length (ta_bounds : gmap pystr ta_entry) (ta_code : pyval) :
  map_Forall (λ _ e, length (bounds e) = 4%nat) ta_bounds ->
  length (bounds_of ta_bounds ta_code) = 4%nat.
Proof.
  intros Hall. unfold bounds_of. destruct ta_code as [s| |]; try done.
  destruct (ta_bounds !! s) as [e|] eqn:He; [|done]. by apply (Hall s).
Qed.

(** What the loop has built when it comes to its end. *)
Lemma main_loop_done (lower : pystr -> pystr) (ta_bounds : gmap pystr ta_entry)
    (ta_records : list dict) :
  forall (features out : list feature) (processed_count m : nat),
    main_loop lower ta_bounds ta_records features processed_count = Done (out, m) ->
    exists new,
      out = features ++ new
      /\ m = (processed_count + length new)%nat
      /\ Forall2 (feature_of_record ta_bounds)
           (filter (λ record, ¬ outside_area lower record) ta_records) new.
Proof.
  induction ta_records as [|record ta_records IH];
    intros features out processed_count m Hloop.
  - injection Hloop as <- <-. exists []. simpl.
    by rewrite app_nil_r, Nat.add_0_r.
  - cbn [main_loop] in Hloop.
    destruct (record !! utf8 "TA2025_V1_") as [ta_code|] eqn:Hcode; [|done].
    destruct (record !! utf8 "TA2025_V_1") as [ta_name|] eqn:Hname; [|done].
    destruct (skip_test lower ta_code ta_name) as [skip|e|] eqn:Hskip; [|done|done].
    assert (Hout : outside_area lower record = skip).
    { unfold outside_area, skip_test in *. rewrite Hcode, Hname.
      destruct (match ta_code with
                | VStr s => bool_decide (s = utf8 "999")
                | _ => false
                end); [by injection Hskip|].
      destruct ta_name; [by injection Hskip|done|done]. }
    destruct skip.
    + apply IH in Hloop as (new & -> & -> & Hall).
      exists new. split; [done|]. split; [done|].
      rewrite filter_cons_False; [done|]. rewrite Hout. simpl. tauto.
    + destruct (create_rectangle_polygon (bounds_of ta_bounds ta_code))
        as [polygon|] eqn:Hpoly; [|done].
      set (ft := Feature ta_code ta_name
                   (default (VInt 0) (record !! utf8 "LAND_AREA_")) polygon) in *.
      apply IH in Hloop as (new & -> & -> & Hall).
      exists (ft :: new). split; [by rewrite <- app_assoc|]. split.
      * simpl. lia.
      * rewrite filter_cons_True by (rewrite Hout; simpl; tauto).
        constructor; [|done]. by repeat split.
Qed.

Lemma bounds_table_shape :
  map_Forall (λ _ e, length (bounds e) = 4%nat) get_ta_approximate_bounds.
Proof. apply (bool_decide_unpack _). vm_compute. exact I. Qed.

Lemma main_loop_invariant (lower : pystr -> pystr) (ta_bounds : gmap pystr ta_entry)
    (P : feature -> Prop) (ta_records : list dict) :
  (forall ta_code ta_name land_area polygon,
      skip_test lower ta_code ta_name = Done false ->
      create_rectangle_polygon (bounds_of ta_bounds ta_code) = Some polygon ->
      P (Feature ta_code ta_name land_area polygon)) ->
  forall (features out : list feature) (processed_count m : nat),
    main_loop lower ta_bounds ta_records features processed_count = Done (out, m) ->
    Forall P features ->
    Forall P out
    /\ (length out <= length features + length ta_records)%nat
    /\ (m + length features = processed_count + length out)%nat.
Proof.
  intros HP. induction ta_records as [|record ta_records IH];
    intros features out processed_count m Hloop Hacc.
  - injection Hloop as <- <-. simpl. split; [done|lia].
  - cbn [main_loop] in Hloop.
    destruct (record !! utf8 "TA2025_V1_") as [ta_code|]; [|done].
    destruct (record !! utf8 "TA2025_V_1") as [ta_name|]; [|done].
    destruct (skip_test lower ta_code ta_name) as [[|]|e|] eqn:Hskip; [| |done|done].
    + apply IH in Hloop as (Hout & Hlen & Hcount); [|done]. simpl. split; [done|lia].
    + destruct (create_rectangle_polygon _) as [polygon|] eqn:Hpoly; [|done].
      apply IH in Hloop as (Hout & Hlen & Hcount).
      * rewrite length_app in *. simpl in *. split; [done|lia].
      * apply Forall_app. split; [done|]. constructor; [|done]. by apply HP.
Qed.

Lemma create_rectangle_polygon_shape {A} (bs : list A) (polygon : list (list (list A))) :
  create_rectangle_polygon bs = Some polygon ->
  length bs = 4%nat
  /\ exists ring p0 p2,
       polygon = [ring] /\ length ring = 5%nat /\ head ring = last ring
       /\ Forall (λ p, length p = 2%nat) ring
       /\ ring !! 0%nat = Some p0 /\ ring !! 2%nat = Some p2 /\ p0 ++ p2 = bs.
Proof.
  intros Hpoly. do 5 (destruct bs as [|? bs]; try done).
  injection Hpoly as <-. split; [done|].
  eexists _, _, _. repeat split; repeat constructor.
Qed.

(** ** The further tables are well formed *)

Ltac wf_gap_by_computation :=
  split;
  [ reflexivity | reflexivity | reflexivity | reflexivity
  | repeat constructor; vm_compute; (discriminate || eauto)
  | repeat constructor ].

Lemma ta_table_wf : well_formed ta_table.
Proof. wf_by_computation. Defined.

Lemma empty_fields_table_wf : well_formed empty_fields_table.
Proof. wf_by_computation. Defined.

Lemma gap_name_table_wf : well_formed_gap gap_name_table [x00; x00; x00].
Proof. wf_gap_by_computation. Defined.

Lemma twice_table_wf : well_formed_gap twice_table [].
Proof. wf_gap_by_computation. Defined.

Lemma latin1_value_table_wf : well_formed latin1_value_table.
Proof. wf_by_computation. Defined.

(** ** Further properties, stated *)

(** X1. When the header length reaches beyond the descriptors and their
    terminator, the descriptor loop stops at the terminator byte [0x0D]
    and the records are read from the header length on: the bytes in
    between, like the bytes after the records, do not show in the
    output. *)
Theorem read_dbf_stops_at_terminator :
  forall (rd : filesystem -> string -> outcome (list dict))
         (fs : filesystem) (filename : string) (t : table) (gap : list byte),
    rd ∈ readers ->
    well_formed_gap t gap ->
    fs !! filename = Some (gap_table_bytes t gap) ->
    rd fs filename
    = Returns (row (table_fields t) <$> filter (λ r, ¬ deleted r) (recs t)).
Proof.
  intros rd fs filename t gap Hrd Hwf Hfs.
  rewrite (readers_same rd Hrd). by eapply read_dbf_gap_table.
Qed.

Lemma read_dbf_stops_at_terminator_witness :
  generate_complete_ta_data.read_dbf
    {[ "ta.dbf" := gap_table_bytes gap_name_table [x00; x00; x00] ]} "ta.dbf"
  = Returns (row (table_fields gap_name_table)
             <$> filter (λ r, ¬ deleted r) (recs gap_name_table)).
Proof.
  apply (read_dbf_stops_at_terminator _ _ _ gap_name_table [x00; x00; x00]).
  - apply complete_reader.
  - apply gap_name_table_wf.
  - apply lookup_singleton_eq.
Defined.

(** X2. [read_dbf] comes to an end on every file: the descriptor loop
    [while f.tell() < header_len - 1] makes at most [header_len + 1]
    iterations, because every iteration that does not raise moves the
    cursor forward. *)
Theorem read_dbf_always_terminates :
  forall (rd : filesystem -> string -> outcome (list dict))
         (fs : filesystem) (filename : string),
    rd ∈ readers ->
    rd fs filename ≠ OutOfFuel.
Proof.
  intros rd fs filename Hrd. rewrite (readers_same rd Hrd).
  apply read_dbf_terminates.
Qed.

Lemma read_dbf_always_terminates_witness :
  create_simplified_ta_geojson.read_dbf
    {[ "ta.dbf" := cut_name_table_bytes ]} "ta.dbf" ≠ OutOfFuel.
Proof.
  apply read_dbf_always_terminates. apply simplified_reader.
Defined.

(** X3. Whenever [read_dbf] returns, the file has at least the 12 bytes
    of the header numbers, and the sequence has at most as many records
    as the header declares. *)
Theorem read_dbf_returns_at_most_declared :
  forall (rd : filesystem -> string -> outcome (list dict))
         (fs : filesystem) (filename : string) (src : list byte) (out : list dict),
    rd ∈ readers ->
    fs !! filename = Some src ->
    rd fs filename = Returns out ->
    (12 <= length src)%nat
    /\ Z.of_nat (length out) <= hdr_num_records (take 32 src).
Proof.
  intros rd fs filename src out Hrd Hfs Hret.
  rewrite (readers_same rd Hrd) in Hret.
  destruct (read_dbf_returns_bound fs filename src out Hfs Hret) as [Hlen Hout].
  split; [done|]. pose proof (le_uint_range (Py.slice (take 32 src) 4 8)) as Hn.
  unfold hdr_num_records in *. lia.
Qed.

Lemma read_dbf_returns_at_most_declared_witness :
  (12 <= length cut_name_table_bytes)%nat
  /\ Z.of_nat (length [ ({[ text "NAME" := VStr (text "ABCDEFGHIJ") ]} : dict);
                        {[ text "NAME" := VStr (text "KLMN") ]} ])
     <= hdr_num_records (take 32 cut_name_table_bytes).
Proof.
  apply (read_dbf_returns_at_most_declared
           create_simplified_ta_geojson.read_dbf
           {[ "ta.dbf" := cut_name_table_bytes ]} "ta.dbf").
  - apply simplified_reader.
  - apply lookup_singleton_eq.
  - vm_compute. reflexivity.
Defined.

(** X4. All records that [read_dbf] returns for a well-formed table have
    the same keys: the names of the Character and Numeric fields, whatever
    the bytes of the records are. *)
Theorem read_dbf_rows_share_keys :
  forall (rd : filesystem -> string -> outcome (list dict))
         (fs : filesystem) (filename : string) (t : table),
    rd ∈ readers ->
    well_formed t ->
    fs !! filename = Some (table_bytes t) ->
    exists out,
      rd fs filename = Returns out
      /\ forall d, d ∈ out ->
           dom d = list_to_set (name <$> filter (λ f, stored f) (table_fields t)).
Proof.
  intros rd fs filename t Hrd Hwf Hfs. rewrite (readers_same rd Hrd).
  exists (row (table_fields t) <$> live (recs t)). split.
  - by apply read_dbf_table.
  - intros d Hd. apply list_elem_of_fmap in Hd as (r & -> & _).
    unfold row. rewrite for_fields_dom, dom_empty_L. apply (left_id_L ∅ (∪)).
Qed.

Lemma read_dbf_rows_share_keys_witness :
  exists out,
    create_simplified_ta_geojson.read_dbf
      {[ "ta.dbf" := table_bytes born_table ]} "ta.dbf" = Returns out
    /\ forall d, d ∈ out ->
         dom d = list_to_set (name <$> filter (λ f, stored f) (table_fields born_table)).
Proof.
  apply read_dbf_rows_share_keys.
  - apply simplified_reader.
  - apply born_table_wf.
  - apply lookup_singleton_eq.
Defined.

(** X5. When several fields have the same name, the entry under that name
    holds the value of the last Character or Numeric field of that name,
    decoded at that field's own offset: each assignment to
    [record_data[name]] replaces the one before. *)
Theorem read_dbf_last_field_of_a_name_wins :
  forall (rd : filesystem -> string -> outcome (list dict))
         (fs : filesystem) (filename : string) (t : table) (gap : list byte)
         (fields1 fields2 : list field) (f : field),
    rd ∈ readers ->
    well_formed_gap t gap ->
    fs !! filename = Some (gap_table_bytes t gap) ->
    table_fields t = fields1 ++ f :: fields2 ->
    stored f = true ->
    Forall (λ g, stored g = true -> name g ≠ name f) fields2 ->
    exists out,
      rd fs filename = Returns out
      /\ Forall2 (λ r d,
           d !! name f
           = field_value (field_type f)
               (Py.slice r (1 + sum_list (field_len <$> fields1))
                           (1 + sum_list (field_len <$> fields1) + field_len f)))
           (filter (λ r, ¬ deleted r) (recs t)) out.
Proof.
  intros rd fs filename t gap fields1 fields2 f Hrd Hwf Hfs Hfields Hst Hlater.
  rewrite (readers_same rd Hrd).
  exists (row (table_fields t) <$> live (recs t)). split.
  - by eapply read_dbf_gap_table.
  - apply Forall2_fmap_r, Forall_Forall2_diag, Forall_forall. intros r _.
    rewrite Hfields. by apply row_last_stored.
Qed.

Lemma read_dbf_last_field_of_a_name_wins_witness :
  exists out,
    create_simplified_ta_geojson.read_dbf
      {[ "ta.dbf" := gap_table_bytes twice_table [] ]} "ta.dbf" = Returns out
    /\ Forall2 (λ r d, d !! text "CODE" = field_value "N" (Py.slice r 3 6))
         (filter (λ r, ¬ deleted r) (recs twice_table)) out.
Proof.
  apply (read_dbf_last_field_of_a_name_wins _ _ _ twice_table []
           [Field (text "CODE") "C" 2] [] (Field (text "CODE") "N" 3)).
  - apply simplified_reader.
  - apply twice_table_wf.
  - apply lookup_singleton_eq.
  - reflexivity.
  - reflexivity.
  - constructor.
Defined.

(** X6. A Numeric field that holds the decimal text of an integer [z], as
    [str(z)] writes it, with blanks before or after, is decoded to [z]:
    what a writer stores as an integer comes back as that integer. *)
Theorem read_dbf_integer_field_round_trip :
  forall (rd : filesystem -> string -> outcome (list dict))
         (fs : filesystem) (filename : string) (t : table)
         (before after : list (list byte)) (r : list byte) (i : nat) (f : field)
         (z : Z) (lead trail : list byte),
    rd ∈ readers ->
    well_formed t ->
    fs !! filename = Some (table_bytes t) ->
    recs t = before ++ r :: after ->
    deleted r = false ->
    table_fields t !! i = Some f ->
    field_type f = "N"%byte ->
    Py.slice r (1 + sum_list (field_len <$> take i (table_fields t)))
               (1 + sum_list (field_len <$> take i (table_fields t)) + field_len f)
    = lead ++ repr_int z ++ trail ->
    Forall (λ c, Py.is_space c = true) lead ->
    Forall (λ c, Py.is_space c = true) trail ->
    exists d,
      rd fs filename
      = Returns ((row (table_fields t) <$> filter (λ r, ¬ deleted r) before)
                 ++ d :: (row (table_fields t) <$> filter (λ r, ¬ deleted r) after))
      /\ d !! name f = Some (VInt z).
Proof.
  intros rd fs filename t before after r i f z lead trail
    Hrd Hwf Hfs Hrecs Hlive Hi Hty Hraw Hlead Htrail.
  rewrite (readers_same rd Hrd).
  exists (row (table_fields t) r). split; [by apply read_dbf_row_at|].
  rewrite (row_lookup _ _ i f) by (done || apply Hwf).
  unfold field_offset. rewrite Hraw. unfold field_value, numeric. rewrite Hty.
  destruct (int_repr_int z lead trail Hlead Htrail) as (-> & -> & ->).
  reflexivity.
Qed.

Lemma read_dbf_integer_field_round_trip_witness :
  exists d,
    create_simplified_ta_geojson.read_dbf
      {[ "ta.dbf" := table_bytes born_table ]} "ta.dbf"
    = Returns ((row (table_fields born_table) <$> filter (λ r, ¬ deleted r) [])
               ++ d :: (row (table_fields born_table)
                          <$> filter (λ r, ¬ deleted r) [bytes_of " Ben 20010911 2x"]))
    /\ d !! text "AGE" = Some (VInt 41).
Proof.
  apply (read_dbf_integer_field_round_trip _ _ _ born_table []
           [bytes_of " Ben 20010911 2x"] (bytes_of " Anna19840229 41") 2
           (Field (text "AGE") "N" 3) 41 (bytes_of " ") []).
  - apply simplified_reader.
  - apply born_table_wf.
  - apply lookup_singleton_eq.
  - reflexivity.
  - reflexivity.
  - reflexivity.
  - reflexivity.
  - reflexivity.
  - repeat constructor.
  - constructor.
Defined.

(** X7. A field declared with length 0 is tolerated: a Character field
    of length 0 yields the empty string, a Numeric one yields 0, a field
    of another type yields no entry; nothing is raised. *)
Theorem read_dbf_zero_length_field :
  forall (rd : filesystem -> string -> outcome (list dict))
         (fs : filesystem) (filename : string) (t : table) (i : nat) (f : field),
    rd ∈ readers ->
    well_formed t ->
    fs !! filename = Some (table_bytes t) ->
    table_fields t !! i = Some f ->
    field_len f = 0%nat ->
    exists out,
      rd fs filename = Returns out
      /\ length out = length (filter (λ r, ¬ deleted r) (recs t))
      /\ forall d, d ∈ out ->
           d !! name f
           = if Byte.eqb (field_type f) "C" then Some (VStr [])
             else if Byte.eqb (field_type f) "N" then Some (VInt 0)
             else None.
Proof.
  intros rd fs filename t i f Hrd Hwf Hfs Hi Hzero. rewrite (readers_same rd Hrd).
  exists (row (table_fields t) <$> live (recs t)). split; [|split].
  - by apply read_dbf_table.
  - by rewrite length_fmap.
  - intros d Hd. apply list_elem_of_fmap in Hd as (r & -> & _).
    rewrite (row_lookup _ _ i f) by (done || apply Hwf).
    rewrite Hzero, Nat.add_0_r. unfold Py.slice. rewrite Nat.sub_diag, take_0.
    unfold field_value.
    destruct (Byte.eqb (field_type f) "C"); [reflexivity|].
    destruct (Byte.eqb (field_type f) "N"); reflexivity.
Qed.

Lemma read_dbf_zero_length_field_witness :
  exists out,
    generate_complete_ta_data.read_dbf
      {[ "ta.dbf" := table_bytes empty_fields_table ]} "ta.dbf" = Returns out
    /\ length out = length (filter (λ r, ¬ deleted r) (recs empty_fields_table))
    /\ forall d, d ∈ out -> d !! text "B" = Some (VInt 0).
Proof.
  apply (read_dbf_zero_length_field _ _ _ empty_fields_table 1 (Field (text "B") "N" 0)).
  - apply complete_reader.
  - apply empty_fields_table_wf.
  - apply lookup_singleton_eq.
  - reflexivity.
  - reflexivity.
Defined.

(** X8. Field names are decoded strictly: when the header announces a
    descriptor, the first descriptor does not start with the terminator and
    its name bytes, stripped of NULs, are not valid UTF-8, [read_dbf]
    raises [UnicodeDecodeError] (whereas undecodable bytes in a field value
    are dropped). *)
Theorem read_dbf_undecodable_field_name :
  forall (rd : filesystem -> string -> outcome (list dict))
         (fs : filesystem) (filename : string) (src : list byte) (c : byte),
    rd ∈ readers ->
    fs !! filename = Some src ->
    (12 <= length src)%nat ->
    33 < hdr_header_len (take 32 src) ->
    src !! 32%nat = Some c ->
    c ≠ x0d ->
    Py.utf8_decode false (Py.strip Py.is_nul (Py.slice src 32 43)) = None ->
    rd fs filename = Raises UnicodeDecodeError.
Proof.
  intros rd fs filename src c Hrd Hfs Hlen Hhl Hc Hterm Hname.
  rewrite (readers_same rd Hrd).
  unfold read_dbf, with_open. rewrite Hfs.
  unfold bind at 1. rewrite read_header.
  assert (Hh : (12 <= length (take 32 src))%nat) by (rewrite length_take; lia).
  unfold bind at 1. rewrite unpack_exact by (rewrite length_slice; lia).
  unfold bind at 1. rewrite unpack_exact by (rewrite length_slice; lia).
  unfold bind at 1. rewrite unpack_exact by (rewrite length_slice; lia).
  fold (hdr_header_len (take 32 src)).
  unfold bind at 1, seek at 1. cbn [content].
  unfold bind at 1. cbn [while_fields].
  unfold bind at 1, tell; cbn [pos].
  replace (_ <? _) with true by (symmetry; apply Z.ltb_lt; lia).
  unfold bind at 1, read; cbn [content pos].
  unfold bind at 1. rewrite (index_Some _ 0 c)
    by (rewrite lookup_take_lt, lookup_drop by lia; by rewrite Nat.add_0_r).
  rewrite eqb_neq by done.
  unfold bind at 1, decode.
  rewrite take_take. change (11 `min` 32)%nat with 11%nat.
  unfold Py.slice in Hname. change (43 - 32)%nat with 11%nat in Hname.
  by rewrite Hname.
Qed.

Lemma read_dbf_undecodable_field_name_witness :
  create_simplified_ta_geojson.read_dbf
    {[ "ta.dbf" := latin1_name_bytes ]} "ta.dbf" = Raises UnicodeDecodeError.
Proof.
  apply (read_dbf_undecodable_field_name _ _ _ latin1_name_bytes x4e).
  - apply simplified_reader.
  - apply lookup_singleton_eq.
  - vm_compute. lia.
  - reflexivity.
  - reflexivity.
  - discriminate.
  - reflexivity.
Defined.

(** X9. [create_rectangle_polygon] raises [ValueError] unless [bounds]
    has exactly four values; otherwise the polygon is a single ring of
    five positions of two coordinates each, closed (the last position is
    the first), and [bounds] can be read back from it: the first position
    is [west, south] and the third is [east, north]. *)
Theorem create_rectangle_polygon_closed_ring :
  forall (A : Type) (bs : list A),
    match create_rectangle_polygon bs with
    | None => length bs ≠ 4%nat
    | Some polygon =>
      length bs = 4%nat
      /\ exists ring p0 p2,
           polygon = [ring] /\ length ring = 5%nat /\ head ring = last ring
           /\ Forall (λ p, length p = 2%nat) ring
           /\ ring !! 0%nat = Some p0 /\ ring !! 2%nat = Some p2 /\ p0 ++ p2 = bs
    end.
Proof.
  intros A bs. destruct (create_rectangle_polygon bs) as [polygon|] eqn:Hpoly.
  - by apply create_rectangle_polygon_shape.
  - intros Hlen. apply create_rectangle_polygon_Some in Hlen as [polygon Hsome].
    congruence.
Qed.

(** X10. Whenever the loop of [main] comes to its end, it has appended
    one feature for each record that is not the outside area (code
    ['999'], or ['outside'] in the lowered name), in the order of the
    records, each built from that record (code, name, [LAND_AREA_] or 0,
    rectangle of the table's bounds or of the default bounds), and it has
    added their number to [processed_count]. *)
Theorem main_loop_one_feature_per_kept_record :
  forall (lower : pystr -> pystr) (ta_bounds : gmap pystr ta_entry)
         (ta_records : list dict) (features out : list feature)
         (processed_count m : nat),
    main_loop lower ta_bounds ta_records features processed_count = Done (out, m) ->
    exists new,
      out = features ++ new
      /\ m = (processed_count + length new)%nat
      /\ Forall2 (feature_of_record ta_bounds)
           (filter (λ record, ¬ outside_area lower record) ta_records) new.
Proof.
  intros lower ta_bounds ta_records features out processed_count m Hloop.
  by apply (main_loop_done lower ta_bounds ta_records features out processed_count m).
Qed.

Lemma main_loop_one_feature_per_kept_record_witness :
  let far_north : dict :=
    {[ utf8 "TA2025_V1_" := VStr (utf8 "001");
       utf8 "TA2025_V_1" := VStr (utf8 "Far North District") ]} in
  let outside : dict :=
    {[ utf8 "TA2025_V1_" := VStr (utf8 "998");
       utf8 "TA2025_V_1" := VStr (utf8 "Area Outside Territorial Authority") ]} in
  let out :=
    [Feature (VStr (utf8 "001")) (VStr (utf8 "Far North District")) (VInt 0)
       [[ [lit "172.5"; lit "-35.8"]; [lit "174.3"; lit "-35.8"];
          [lit "174.3"; lit "-34.4"]; [lit "172.5"; lit "-34.4"];
          [lit "172.5"; lit "-35.8"] ]]] in
  exists new,
    out = [] ++ new
    /\ 1%nat = (0 + length new)%nat
    /\ Forall2 (feature_of_record get_ta_approximate_bounds)
         (filter (λ record, ¬ outside_area ascii_lower record) [far_north; outside]) new.
Proof.
  intros far_north outside out.
  apply (main_loop_one_feature_per_kept_record ascii_lower get_ta_approximate_bounds
           [far_north; outside] [] out 0 1).
  vm_compute. reflexivity.
Defined.

(** X11. [main] after [read_dbf]: whenever [main] gets as far as dumping,
    on a well-formed table, it dumps one feature for each record that is
    neither marked deleted nor the outside area, in file order, each built
    from the row of its record; there are never more features than
    records. *)
Theorem main_features_of_table :
  forall (lower : pystr -> pystr) (fs : filesystem) (t : table)
         (features : list feature),
    well_formed t ->
    fs !! "territorial-authority-2025.dbf" = Some (table_bytes t) ->
    main lower fs = Done features ->
    Forall2 (feature_of_record get_ta_approximate_bounds)
      (filter (λ record, ¬ outside_area lower record)
         (row (table_fields t) <$> filter (λ r, ¬ deleted r) (recs t)))
      features
    /\ (length features <= length (recs t))%nat.
Proof.
  intros lower fs t features Hwf Hfs Hmain.
  unfold main in Hmain. rewrite (read_dbf_table _ _ t) in Hmain by done.
  destruct (main_loop _ _ _ _ _) as [[out m]|e|] eqn:Hloop; [|done|done].
  injection Hmain as ->.
  apply main_loop_done in Hloop as (new & -> & _ & Hall).
  rewrite app_nil_l. split; [exact Hall|].
  apply Forall2_length in Hall. rewrite <- Hall.
  etrans; [apply length_filter|]. rewrite length_fmap. apply length_filter.
Qed.

Lemma main_features_of_table_witness :
  let features :=
    [Feature (VStr (utf8 "001")) (VStr (utf8 "Far North"))
       (VFloat (SpecFloat.S754_finite false 7521011377708728 (-50)))
       [[ [lit "172.5"; lit "-35.8"]; [lit "174.3"; lit "-35.8"];
          [lit "174.3"; lit "-34.4"]; [lit "172.5"; lit "-34.4"];
          [lit "172.5"; lit "-35.8"] ]];
     Feature (VStr (utf8 "500")) (VStr (utf8 "Nowhere City")) (VInt 12)
       [[ [lit "172.0"; lit "-42.0"]; [lit "173.0"; lit "-42.0"];
          [lit "173.0"; lit "-41.0"]; [lit "172.0"; lit "-41.0"];
          [lit "172.0"; lit "-42.0"] ]]] in
  Forall2 (feature_of_record get_ta_approximate_bounds)
    (filter (λ record, ¬ outside_area ascii_lower record)
       (row (table_fields ta_table) <$> filter (λ r, ¬ deleted r) (recs ta_table)))
    features
  /\ (length features <= length (recs ta_table))%nat.
Proof.
  intros features.
  apply (main_features_of_table ascii_lower
           {[ "territorial-authority-2025.dbf" := table_bytes ta_table ]} ta_table).
  - apply ta_table_wf.
  - apply lookup_singleton_eq.
  - vm_compute. reflexivity.
Defined.

(** X12. When the table has no Character or Numeric field named
    [TA2025_V1_] (the column is missing, or stored under a type that
    [read_dbf] skips) and at least one record is not marked deleted,
    [main] raises [KeyError] for that key on the first record. *)
Theorem main_key_error_without_code_field :
  forall (lower : pystr -> pystr) (fs : filesystem) (t : table),
    well_formed t ->
    fs !! "territorial-authority-2025.dbf" = Some (table_bytes t) ->
    Forall (λ g, stored g = true -> name g ≠ utf8 "TA2025_V1_") (table_fields t) ->
    filter (λ r, ¬ deleted r) (recs t) ≠ [] ->
    main lower fs = Failed (KeyError (utf8 "TA2025_V1_")).
Proof.
  intros lower fs t Hwf Hfs Hnone Hlive.
  unfold main. rewrite (read_dbf_table _ _ t) by done.
  fold (live (recs t)) in Hlive. destruct (live (recs t)) as [|r rs]; [done|].
  cbn [fmap list_fmap main_loop]. unfold row.
  by rewrite for_fields_lookup_unstored, lookup_empty.
Qed.

Lemma main_key_error_without_code_field_witness :
  main ascii_lower {[ "territorial-authority-2025.dbf" := table_bytes born_table ]}
  = Failed (KeyError (utf8 "TA2025_V1_")).
Proof.
  apply (main_key_error_without_code_field ascii_lower _ born_table).
  - apply born_table_wf.
  - apply lookup_singleton_eq.
  - repeat constructor; discriminate.
  - discriminate.
Defined.

(** X13. Whenever [main] returns, on any file and with any table content,
    no feature has the code ['999'], the geometry of every feature is a
    single closed ring of five positions, and the header of the file
    declares at least as many records as there are features. *)
Theorem main_features_invariant :
  forall (lower : pystr -> pystr) (fs : filesystem) (src : list byte)
         (features : list feature),
    fs !! "territorial-authority-2025.dbf" = Some src ->
    main lower fs = Done features ->
    Forall (λ ft, TA2025_V1 ft ≠ VStr (utf8 "999")
                  /\ exists ring, coordinates ft = [ring]
                                  /\ length ring = 5%nat /\ head ring = last ring)
      features
    /\ Z.of_nat (length features) <= hdr_num_records (take 32 src).
Proof.
  intros lower fs src features Hfs Hmain. unfold main in Hmain.
  destruct (create_simplified_ta_geojson.read_dbf fs _) as [ta_records|e|] eqn:Hread;
    [|done|done].
  destruct (main_loop _ _ _ _ _) as [[out m]|e|] eqn:Hloop; [|done|done].
  injection Hmain as ->.
  eapply main_loop_invariant in Hloop as (Hall & Hlen & _); [|..|constructor].
  - split; [exact Hall|].
    destruct (read_dbf_returns_bound fs _ src ta_records Hfs Hread) as [_ Hn].
    pose proof (le_uint_range (Py.slice (take 32 src) 4 8)) as Hrange.
    unfold hdr_num_records in *. simpl in Hlen. lia.
  - intros ta_code ta_name land_area polygon Hskip Hpoly. cbn [TA2025_V1 coordinates].
    split.
    + intros ->. unfold skip_test in Hskip.
      by rewrite bool_decide_eq_true_2 in Hskip.
    + apply create_rectangle_polygon_shape in Hpoly
        as (_ & ring & p0 & p2 & -> & Hlen5 & Hclosed & _). eauto.
Qed.

Lemma main_features_invariant_witness :
  Forall (λ ft, TA2025_V1 ft ≠ VStr (utf8 "999")
                /\ exists ring, coordinates ft = [ring]
                                /\ length ring = 5%nat /\ head ring = last ring)
    [Feature (VStr (utf8 "ABCDEFGHIJ")) (VStr (utf8 "ABCDEFGHIJ")) (VInt 0)
       [[ [lit "172.0"; lit "-42.0"]; [lit "173.0"; lit "-42.0"];
          [lit "173.0"; lit "-41.0"]; [lit "172.0"; lit "-41.0"];
          [lit "172.0"; lit "-42.0"] ]]]
  /\ Z.of_nat 1 <= hdr_num_records
                     (take 32 (table_bytes
                                 (make_table [("TA2025_V1_", "C"%byte, 10);
                                              ("TA2025_V_1", "C"%byte, 10)]
                                    [bytes_of " ABCDEFGHIJABCDEFGHIJ"]))).
Proof.
  apply (main_features_invariant ascii_lower
           {[ "territorial-authority-2025.dbf" :=
                table_bytes (make_table [("TA2025_V1_", "C"%byte, 10);
                                         ("TA2025_V_1", "C"%byte, 10)]
                               [bytes_of " ABCDEFGHIJABCDEFGHIJ"]) ]}).
  - apply lookup_singleton_eq.
  - vm_compute. reflexivity.
Defined.

(** *** Undecodable bytes in Character values *)

Lemma utf8_decode_app_ascii (ignore : bool) (a rest : list byte) :
  Forall (λ c, Py.ord c < 128) a ->
  Py.utf8_decode ignore (a ++ rest)
  = app ((λ c, Z.to_N (Py.ord c)) <$> a) <$> Py.utf8_decode ignore rest.
Proof.
  induction 1 as [|c a Hc _ IH].
  - simpl. by destruct (Py.utf8_decode ignore rest).
  - rewrite <- app_comm_cons. cbn [Py.utf8_decode]. apply Z.ltb_lt in Hc.
    rewrite Hc, IH. by destruct (Py.utf8_decode ignore rest).
Qed.

(** With [errors='ignore'] a byte from 128 up that is followed by an ASCII
    byte is dropped, whatever it is. *)
Lemma utf8_decode_ignore_high (c b0 : byte) (b : list byte) :
  128 <= Py.ord c -> Py.ord b0 < 128 ->
  Py.utf8_decode true (c :: b0 :: b) = Py.utf8_decode true (b0 :: b).
Proof.
  intros Hc Hb0.
  assert (Hcont : Py.is_cont b0 = false).
  { unfold Py.is_cont. apply andb_false_iff. left. apply Z.leb_gt. lia. }
  change (Py.utf8_decode true (c :: b0 :: b))
    with (if Py.ord c <? 128 then cons (Z.to_N (Py.ord c)) <$> Py.utf8_decode true (b0 :: b)
          else if Py.ord c <? 194 then Py.utf8_decode true (b0 :: b)
          else if Py.ord c <? 224 then
            if Py.is_cont b0
            then cons (Py.cp2 (Py.ord c) (Py.ord b0)) <$> Py.utf8_decode true b
            else Py.utf8_decode true (b0 :: b)
          else if Py.ord c <? 240 then
            if negb (Py.is_cont b0)
               || (if Py.ord b0 <? 160 then Py.ord c =? 224 else Py.ord c =? 237)
            then Py.utf8_decode true (b0 :: b)
            else match b with
                 | [] => Some []
                 | b2 :: r2 =>
                   if Py.is_cont b2
                   then cons (Py.cp3 (Py.ord c) (Py.ord b0) (Py.ord b2))
                          <$> Py.utf8_decode true r2
                   else Py.utf8_decode true b
                 end
          else if Py.ord c <? 245 then
            if negb (Py.is_cont b0)
               || (if Py.ord b0 <? 144 then Py.ord c =? 240 else Py.ord c =? 244)
            then Py.utf8_decode true (b0 :: b)
            else match b with
                 | [] => Some []
                 | b2 :: r2 =>
                   if negb (Py.is_cont b2) then Py.utf8_decode true b
                   else match r2 with
                        | [] => Some []
                        | b3 :: r3 =>
                          if Py.is_cont b3
                          then cons (Py.cp4 (Py.ord c) (Py.ord b0) (Py.ord b2) (Py.ord b3))
                                 <$> Py.utf8_decode true r3
                          else Py.utf8_decode true r2
                        end
                 end
          else Py.utf8_decode true (b0 :: b)).
  rewrite Hcont. cbn [negb orb].
  replace (Py.ord c <? 128) with false by (symmetry; apply Z.ltb_ge; lia).
  by repeat destruct (_ <? _).
Qed.

(** X14. In a Character field, a byte from 128 up that stands between ASCII
    text is silently dropped from the decoded value (as happens to every
    accented letter of a Latin-1 file): the value is the ASCII text before
    it followed by the ASCII text after it. *)
Theorem read_dbf_character_field_drops_high_byte :
  forall (rd : filesystem -> string -> outcome (list dict))
         (fs : filesystem) (filename : string) (t : table)
         (before after : list (list byte)) (r : list byte) (i : nat) (f : field)
         (a b : list byte) (c : byte),
    rd ∈ readers ->
    well_formed t ->
    fs !! filename = Some (table_bytes t) ->
    recs t = before ++ r :: after ->
    deleted r = false ->
    table_fields t !! i = Some f ->
    field_type f = "C"%byte ->
    Py.slice r (1 + sum_list (field_len <$> take i (table_fields t)))
               (1 + sum_list (field_len <$> take i (table_fields t)) + field_len f)
    = a ++ c :: b ->
    128 <= Py.ord c ->
    Forall (λ x, Py.ord x < 128) a ->
    Forall (λ x, Py.ord x < 128) b ->
    (exists x, head a = Some x /\ Py.is_uspace (Z.to_N (Py.ord x)) = false) ->
    (exists x, last b = Some x /\ Py.is_uspace (Z.to_N (Py.ord x)) = false) ->
    exists d,
      rd fs filename
      = Returns ((row (table_fields t) <$> filter (λ r, ¬ deleted r) before)
                 ++ d :: (row (table_fields t) <$> filter (λ r, ¬ deleted r) after))
      /\ d !! name f = Some (VStr ((λ x, Z.to_N (Py.ord x)) <$> (a ++ b))).
Proof.
  intros rd fs filename t before after r i f a b c
    Hrd Hwf Hfs Hrecs Hlive Hi Hty Hraw Hc Ha Hb (xa & Hxa & Hsa) (xb & Hxb & Hsb).
  rewrite (readers_same rd Hrd).
  exists (row (table_fields t) r). split; [by apply read_dbf_row_at|].
  rewrite (row_lookup _ _ i f) by (done || apply Hwf).
  unfold field_offset. rewrite Hraw. unfold field_value. rewrite Hty.
  cbn [Byte.eqb]. do 2 f_equal.
  destruct a as [|a0 a]; [done|]. injection Hxa as ->.
  destruct b as [|b0 b]; [done|].
  assert (Hnot : forall x, Py.is_uspace (Z.to_N (Py.ord x)) = false ->
                           Py.is_space x = false).
  { intros x Hx. destruct (Py.is_space x) eqn:Hs; [|done].
    apply is_space_uspace in Hs. congruence. }
  assert (Hlast : last ((xa :: a) ++ c :: b0 :: b) = Some xb).
  { by rewrite last_app, last_cons, Hxb. }
  unfold Py.bytes_strip.
  pose proof (strip_padded Py.is_space [] ((xa :: a) ++ c :: b0 :: b) []) as Hstrip.
  rewrite app_nil_r, app_nil_l in Hstrip. rewrite Hstrip;
    [|done|done|intros x [= <-]; by apply Hnot
     |intros x Hx; rewrite Hlast in Hx; injection Hx as <-; by apply Hnot].
  unfold Py.decode_ignore.
  rewrite utf8_decode_app_ascii by done.
  rewrite utf8_decode_ignore_high by (done || by apply (Forall_inv Hb)).
  rewrite utf8_decode_ascii by done. cbn [fmap option_fmap option_map default].
  rewrite <- fmap_app.
  unfold Py.str_strip.
  pose proof (strip_padded Py.is_uspace []
                ((λ x, Z.to_N (Py.ord x)) <$> ((xa :: a) ++ b0 :: b)) []) as Hstrip'.
  rewrite app_nil_r, app_nil_l in Hstrip'. apply Hstrip'; [done|done| |].
  - intros x [= <-]. done.
  - intros x Hx. rewrite fmap_last, last_app, Hxb in Hx.
    by injection Hx as <-.
Qed.

Lemma read_dbf_character_field_drops_high_byte_witness :
  exists d,
    create_simplified_ta_geojson.read_dbf
      {[ "ta.dbf" := table_bytes latin1_value_table ]} "ta.dbf"
    = Returns ((row (table_fields latin1_value_table) <$> filter (λ r, ¬ deleted r) [])
               ++ d :: (row (table_fields latin1_value_table)
                          <$> filter (λ r, ¬ deleted r) []))
    /\ d !! text "NAME" = Some (VStr (text "Cafs")).
Proof.
  apply (read_dbf_character_field_drops_high_byte _ _ _ latin1_value_table [] []
           (bytes_of " Caf" ++ [xe9] ++ bytes_of "s") 0 (Field (text "NAME") "C" 5)
           (bytes_of "Caf") (bytes_of "s") xe9).
  - apply simplified_reader.
  - apply latin1_value_table_wf.
  - apply lookup_singleton_eq.
  - reflexivity.
  - reflexivity.
  - reflexivity.
  - reflexivity.
  - reflexivity.
  - vm_compute. discriminate.
  - repeat constructor.
  - repeat constructor.
  - eexists. split; reflexivity.
  - eexists. split; reflexivity.
Defined.

(** ** Numeric text *)

Lemma lstrip_all {A} (p : A -> bool) (s : list A) :
  Forall (λ c, p c = true) s -> Py.lstrip p s = [].
Proof.
  intros Hall. rewrite <- (app_nil_r s). by rewrite lstrip_app_all.
Qed.

Lemma leading_digits_app (ds rest : list byte) :
  Forall (λ c, Py.is_digit c = true) ds ->
  (forall c, head rest = Some c -> Py.is_digit c = false) ->
  Py.lstrip Py.is_digit (ds ++ rest) = rest
  /\ Py.leading_digits (ds ++ rest) = ds.
Proof.
  intros Hds Hrest.
  assert (Hstrip : Py.lstrip Py.is_digit (ds ++ rest) = rest)
    by (rewrite lstrip_app_all by done; by apply lstrip_head).
  split; [done|]. unfold Py.leading_digits. rewrite Hstrip, length_app.
  replace (length ds + length rest - length rest)%nat with (length ds) by lia.
  apply take_app_length.
Qed.

Lemma drop_underscores_without (s : list byte) :
  Forall (λ c, Byte.eqb c "_" = false) s ->
  forall prev, from_option (Byte.eqb "_") false prev = false ->
               Py.drop_underscores prev s = Some s.
Proof.
  induction 1 as [|c s Hc _ IH]; intros prev Hprev; cbn [Py.drop_underscores].
  - by rewrite Hprev.
  - rewrite Hc, Hprev. cbn [andb]. rewrite IH; [done|].
    cbn [from_option]. apply eqb_neq. intros <-. by rewrite Byte.byte_dec_lb in Hc.
Qed.

(** A plain decimal text: an optional [-], digits, a point, digits, with a
    digit on at least one side of the point. *)
Lemma float_decimal_text (negative : bool) (ds1 ds2 lead trail : list byte) :
  Forall (λ c, Py.is_digit c = true) ds1 ->
  Forall (λ c, Py.is_digit c = true) ds2 ->
  ds1 ++ ds2 ≠ [] ->
  Forall (λ c, Py.is_space c = true) lead ->
  Forall (λ c, Py.is_space c = true) trail ->
  let s := (if negative then ["-"%byte] else []) ++ ds1 ++ "."%byte :: ds2 in
  Py.bytes_strip (lead ++ s ++ trail) = s
  /\ Py.contains "." s = true
  /\ Py.float s
     = Some (Py.binary64 negative (Py.digits_value (ds1 ++ ds2))
               (- Z.of_nat (length ds2))).
Proof.
  intros Hds1 Hds2 Hne Hlead Htrail s.
  set (body := ds1 ++ "."%byte :: ds2).
  assert (Hdigit_ord : forall c, Py.is_digit c = true -> 48 <= Py.ord c <= 57)
    by (intros c; apply is_digit_ord).
  assert (Hbody : Forall (λ c, 46 <= Py.ord c <= 57) body).
  { apply Forall_app. split; [|constructor].
    - eapply Forall_impl; [exact Hds1|]. intros c Hc. apply Hdigit_ord in Hc. lia.
    - change (Py.ord ".") with 46. lia.
    - eapply Forall_impl; [exact Hds2|]. intros c Hc. apply Hdigit_ord in Hc. lia. }
  assert (Hs : Forall (λ c, 45 <= Py.ord c <= 57) s).
  { unfold s. apply Forall_app. split.
    - destruct negative; repeat constructor; (change (Py.ord "-") with 45; lia).
    - eapply Forall_impl; [exact Hbody|]. intros c Hc. simpl in Hc. lia. }
  assert (Hnospace : forall c, 45 <= Py.ord c <= 57 -> Py.is_space c = false).
  { intros c Hc. unfold Py.is_space. apply orb_false_iff. split.
    - apply andb_false_iff. right. apply Z.leb_gt. lia.
    - apply Z.eqb_neq. lia. }
  assert (Hpadded : forall lead trail,
            Forall (λ c, Py.is_space c = true) lead ->
            Forall (λ c, Py.is_space c = true) trail ->
            Py.bytes_strip (lead ++ s ++ trail) = s).
  { intros lead' trail' Hlead' Htrail'. unfold Py.bytes_strip.
    apply strip_padded; [done|done| |].
    - intros c Hc. apply Hnospace. apply head_Some_elem_of in Hc.
      by apply (proj1 (Forall_forall _ _) Hs).
    - intros c Hc. apply Hnospace. apply last_Some_elem_of in Hc.
      by apply (proj1 (Forall_forall _ _) Hs). }
  assert (Hstrip : Py.bytes_strip s = s).
  { pose proof (Hpadded [] [] ltac:(done) ltac:(done)) as Hp.
    by rewrite app_nil_r, app_nil_l in Hp. }
  split; [by apply Hpadded|]. split.
  { unfold Py.contains. apply existsb_exists. exists "."%byte. split; [|done].
    unfold s, body. rewrite !in_app_iff. right. right. by left. }
  unfold Py.float. rewrite Hstrip.
  rewrite drop_underscores_without; [|
    eapply Forall_impl; [exact Hs|]; intros c Hc; simpl in Hc;
    apply eqb_ord; change (Py.ord "_") with 95; lia | done].
  cbn [mbind option_bind].
  assert (Hsplit : Py.split_sign s = (negative, body)).
  { unfold s. destruct negative; [reflexivity|]. cbn [app].
    unfold Py.split_sign. fold body. destruct body as [|c r] eqn:Hb; [done|].
    pose proof (Forall_inv Hbody) as Hc. simpl in Hc.
    by rewrite !eqb_ord by (change (Py.ord "+") with 43; change (Py.ord "-") with 45; lia). }
  rewrite Hsplit.
  assert (Hlow : forall l, l = [105; 110; 102] \/ l = [105; 110; 102; 105; 110; 105; 116; 121]
                           \/ l = [110; 97; 110] -> Py.lower <$> body ≠ l).
  { intros l Hl Heq.
    assert (Hin : Py.lower "."%byte ∈ l).
    { rewrite <- Heq. apply list_elem_of_fmap. exists "."%byte. split; [done|].
      unfold body. apply elem_of_app. right. apply list_elem_of_here. }
    change (Py.lower ".") with 46 in Hin.
    destruct Hl as [-> | [-> | ->]];
      repeat (apply elem_of_cons in Hin as [Hin|Hin]; [discriminate|]);
      by apply not_elem_of_nil in Hin. }
  rewrite !bool_decide_eq_false_2 by (apply Hlow; tauto).
  assert (Hpoint : forall c, head ("."%byte :: ds2) = Some c -> Py.is_digit c = false)
    by (by intros c [= <-]).
  destruct (leading_digits_app ds1 ("."%byte :: ds2) Hds1 Hpoint) as [Hr1 Hl1].
  fold body in Hr1, Hl1.
  assert (Hr2 : Py.lstrip Py.is_digit ds2 = []) by (by apply lstrip_all).
  assert (Hl2 : Py.leading_digits ds2 = ds2).
  { unfold Py.leading_digits. rewrite Hr2. simpl. rewrite Nat.sub_0_r. apply firstn_all. }
  assert (Hdec : Py.is_decimal body = true).
  { unfold Py.is_decimal. rewrite Hr1. cbn [Byte.eqb]. rewrite Hr2.
    rewrite andb_true_r. apply Nat.ltb_lt.
    unfold body. rewrite length_app. simpl. rewrite Nat.sub_0_r.
    destruct ds1, ds2; simpl in *; (done || lia). }
  rewrite Hdec. unfold Py.decimal_parts. rewrite Hr1, Hl1. cbn [Byte.eqb].
  by rewrite Hr2, Hl2.
Qed.

Lemma elem_of_lstrip {A} (p : A -> bool) (s : list A) (c : A) :
  c ∈ s -> p c = false -> c ∈ Py.lstrip p s.
Proof.
  intros Hin Hc. induction s as [|x s IH]; [done|]. simpl.
  destruct (p x) eqn:Hx; [|done].
  apply elem_of_cons in Hin as [->|Hin]; [congruence|by apply IH].
Qed.

Lemma elem_of_strip {A} (p : A -> bool) (s : list A) (c : A) :
  c ∈ s -> p c = false -> c ∈ Py.strip p s.
Proof.
  intros Hin Hc. unfold Py.strip, Py.rstrip.
  apply elem_of_reverse, elem_of_lstrip; [|done].
  apply elem_of_reverse. by apply elem_of_lstrip.
Qed.

Lemma drop_underscores_elem (c : byte) (s : list byte) :
  c ≠ "_"%byte ->
  forall prev s', Py.drop_underscores prev s = Some s' -> c ∈ s -> c ∈ s'.
Proof.
  intros Hc. induction s as [|x s IH]; intros prev s' Hdrop Hin.
  - by apply elem_of_nil in Hin.
  - cbn [Py.drop_underscores] in Hdrop.
    destruct (Byte.eqb x "_") eqn:Hx.
    + apply Byte.byte_dec_bl in Hx. subst x.
      apply elem_of_cons in Hin as [->|Hin]; [done|].
      destruct (from_option Py.is_digit false prev); [|done]. by eapply IH.
    + destruct (from_option (Byte.eqb "_") false prev && negb (Py.is_digit x)); [done|].
      destruct (Py.drop_underscores (Some x) s) as [r|] eqn:Hr; [|done].
      injection Hdrop as <-.
      apply elem_of_cons in Hin as [->|Hin]; [apply list_elem_of_here|].
      apply list_elem_of_further. by eapply IH.
Qed.

Lemma split_sign_elem (c : byte) (s : list byte) :
  c ≠ "+"%byte -> c ≠ "-"%byte -> c ∈ s -> c ∈ (Py.split_sign s).2.
Proof.
  intros Hplus Hminus Hin. unfold Py.split_sign.
  destruct s as [|x s]; [done|].
  destruct (Byte.eqb x "+") eqn:Hx;
    [apply Byte.byte_dec_bl in Hx; subst x;
     apply elem_of_cons in Hin as [->|Hin]; done|].
  destruct (Byte.eqb x "-") eqn:Hy;
    [apply Byte.byte_dec_bl in Hy; subst x;
     apply elem_of_cons in Hin as [->|Hin]; done|].
  done.
Qed.

Lemma int_digits_garbage (c : byte) (s : list byte) :
  c ∈ s -> Py.is_digit c = false -> c ≠ "_"%byte ->
  forall u a, Py.int_digits u a s = None.
Proof.
  intros Hin Hdigit Hc. induction s as [|x s IH]; intros u a.
  - by apply elem_of_nil in Hin.
  - cbn [Py.int_digits]. apply elem_of_cons in Hin as [<-|Hin].
    + rewrite eqb_neq by done. unfold Py.digit.
      unfold Py.is_digit in Hdigit. by rewrite Hdigit.
    + destruct (Byte.eqb x "_"); [destruct u; [done|by apply IH]|].
      destruct (Py.digit x); [by apply IH|done].
Qed.

Lemma int_garbage (c : byte) (v : list byte) :
  c ∈ v -> Py.is_digit c = false -> Py.is_space c = false ->
  c ≠ "_"%byte -> c ≠ "+"%byte -> c ≠ "-"%byte ->
  Py.int v = None.
Proof.
  intros Hin Hdigit Hspace Hus Hplus Hminus. unfold Py.int.
  pose proof (elem_of_strip Py.is_space v c Hin Hspace) as Hin'.
  fold (Py.bytes_strip v) in Hin'.
  pose proof (split_sign_elem c _ Hplus Hminus Hin') as Hbody.
  destruct (Py.split_sign (Py.bytes_strip v)) as [negative body]. simpl in Hbody.
  destruct body as [|x body]; [done|].
  destruct (Byte.eqb x "_"); [done|].
  by rewrite (int_digits_garbage c).
Qed.

Lemma lstrip_split {A} (p : A -> bool) (s : list A) :
  exists ds, s = ds ++ Py.lstrip p s /\ Forall (λ c, p c = true) ds.
Proof.
  induction s as [|x s (ds & Heq & Hds)]; [by exists []|]. simpl.
  destruct (p x) eqn:Hx; [|by exists []].
  exists (x :: ds). split; [by rewrite <- app_comm_cons, <- Heq|by constructor].
Qed.

Lemma is_exponent_bytes (s : list byte) :
  Py.is_exponent s = true -> Forall decimal_byte s.
Proof.
  destruct s as [|e r]; [done|]. cbn [Py.is_exponent].
  intros H. apply andb_true_iff in H as [He H].
  apply andb_true_iff in H as [_ Hds].
  assert (Hall : forall ds, forallb Py.is_digit ds = true -> Forall decimal_byte ds).
  { intros ds Hf. apply Forall_forall. intros c Hc. left.
    apply (proj1 (forallb_forall _ _) Hf). by apply list_elem_of_In. }
  constructor.
  - right. apply orb_true_iff in He as [He|He]; apply Byte.byte_dec_bl in He; subst e.
    + apply list_elem_of_further, list_elem_of_here.
    + do 2 apply list_elem_of_further. apply list_elem_of_here.
  - destruct r as [|c r']; [done|].
    destruct (Byte.eqb c "+" || Byte.eqb c "-") eqn:Hsign; [|by apply Hall].
    constructor; [|by apply Hall]. right.
    apply orb_true_iff in Hsign as [Hc|Hc]; apply Byte.byte_dec_bl in Hc; subst c.
    + do 3 apply list_elem_of_further. apply list_elem_of_here.
    + do 4 apply list_elem_of_further. apply list_elem_of_here.
Qed.

Lemma is_decimal_bytes (s : list byte) :
  Py.is_decimal s = true -> Forall decimal_byte s.
Proof.
  unfold Py.is_decimal. intros Hdec.
  assert (Hdigits : forall ds, Forall (λ c, Py.is_digit c = true) ds
                               -> Forall decimal_byte ds).
  { intros ds Hds. eapply Forall_impl; [exact Hds|]. intros c Hc. by left. }
  destruct (lstrip_split Py.is_digit s) as (ds1 & Hs & Hds1).
  rewrite Hs. apply Forall_app. split; [by apply Hdigits|].
  destruct (Py.lstrip Py.is_digit s) as [|c r2]; [done|].
  destruct (Byte.eqb c ".") eqn:Hc.
  - apply Byte.byte_dec_bl in Hc. subst c.
    constructor; [right; apply list_elem_of_here|].
    destruct (lstrip_split Py.is_digit r2) as (ds2 & Hr2 & Hds2).
    rewrite Hr2. apply Forall_app. split; [by apply Hdigits|].
    apply andb_true_iff in Hdec as [_ Hexp]. by apply is_exponent_bytes.
  - apply andb_true_iff in Hdec as [_ Hexp]. by apply is_exponent_bytes.
Qed.

Lemma float_garbage (c : byte) (v : list byte) :
  c ∈ v -> "."%byte ∈ v -> ¬ decimal_byte c -> Py.is_space c = false ->
  c ≠ "_"%byte ->
  Py.float v = None.
Proof.
  intros Hin Hpoint Hgarbage Hspace Hus. unfold Py.float.
  pose proof (elem_of_strip Py.is_space v c Hin Hspace) as Hin'.
  pose proof (elem_of_strip Py.is_space v "."%byte Hpoint eq_refl) as Hpoint'.
  fold (Py.bytes_strip v) in Hin', Hpoint'.
  destruct (Py.drop_underscores None (Py.bytes_strip v)) as [s|] eqn:Hdrop; [|done].
  cbn [mbind option_bind].
  pose proof (drop_underscores_elem c _ Hus _ _ Hdrop Hin') as Hs.
  pose proof (drop_underscores_elem "."%byte _ ltac:(done) _ _ Hdrop Hpoint') as Hsp.
  assert (Hplus : c ≠ "+"%byte).
  { intros ->. apply Hgarbage. right. do 3 apply list_elem_of_further.
    apply list_elem_of_here. }
  assert (Hminus : c ≠ "-"%byte).
  { intros ->. apply Hgarbage. right. do 4 apply list_elem_of_further.
    apply list_elem_of_here. }
  pose proof (split_sign_elem c s Hplus Hminus Hs) as Hbody.
  pose proof (split_sign_elem "."%byte s ltac:(done) ltac:(done) Hsp) as Hbodyp.
  destruct (Py.split_sign s) as [negative body]. simpl in Hbody, Hbodyp.
  assert (Hlow : forall l, l = [105; 110; 102] \/ l = [105; 110; 102; 105; 110; 105; 116; 121]
                           \/ l = [110; 97; 110] -> Py.lower <$> body ≠ l).
  { intros l Hl Heq.
    assert (Hl46 : Py.lower "."%byte ∈ l).
    { rewrite <- Heq. apply list_elem_of_fmap. by exists "."%byte. }
    change (Py.lower ".") with 46 in Hl46.
    destruct Hl as [-> | [-> | ->]];
      repeat (apply elem_of_cons in Hl46 as [Hl46|Hl46]; [discriminate|]);
      by apply not_elem_of_nil in Hl46. }
  rewrite !bool_decide_eq_false_2 by (apply Hlow; tauto).
  destruct (Py.is_decimal body) eqn:Hdec; [|done].
  exfalso. apply Hgarbage.
  by apply (proj1 (Forall_forall _ _) (is_decimal_bytes body Hdec)).
Qed.

(** The value of a Numeric field is 0 when it is blank, and when it holds
    a byte that no number is written with. *)
Lemma numeric_blank (raw : list byte) :
  Forall (λ c, Py.is_space c = true) raw -> numeric (Py.bytes_strip raw) = VInt 0.
Proof.
  intros Hblank. unfold Py.bytes_strip, Py.strip, Py.rstrip.
  by rewrite (lstrip_all _ _ Hblank).
Qed.

Lemma numeric_garbage (raw : list byte) (c : byte) :
  c ∈ raw -> ¬ decimal_byte c -> Py.is_space c = false -> c ≠ "_"%byte ->
  numeric (Py.bytes_strip raw) = VInt 0.
Proof.
  intros Hin Hgarbage Hspace Hus.
  pose proof (elem_of_strip Py.is_space raw c Hin Hspace) as Hin'.
  fold (Py.bytes_strip raw) in Hin'.
  assert (Hdigit : Py.is_digit c = false).
  { destruct (Py.is_digit c) eqn:Hd; [|done]. exfalso. apply Hgarbage. by left. }
  unfold numeric. destruct (Py.contains "." (Py.bytes_strip raw)) eqn:Hdot.
  - rewrite (float_garbage c); try done.
    unfold Py.contains in Hdot. apply existsb_exists in Hdot as (x & Hx & Heq).
    apply Byte.byte_dec_bl in Heq. subst x. by apply list_elem_of_In.
  - rewrite (int_garbage c); try done.
    + intros ->. apply Hgarbage. right. do 3 apply list_elem_of_further.
      apply list_elem_of_here.
    + intros ->. apply Hgarbage. right. do 4 apply list_elem_of_further.
      apply list_elem_of_here.
Qed.

Lemma number_byte_false (c : byte) :
  number_byte c = false ->
  ¬ decimal_byte c /\ Py.is_space c = false /\ c ≠ "_"%byte.
Proof.
  unfold number_byte. intros H.
  apply orb_false_iff in H as [H Hlist].
  apply orb_false_iff in H as [Hdigit Hspace].
  assert (Hnot : forall x, x ∈ ["."%byte; "e"%byte; "E"%byte; "+"%byte; "-"%byte; "_"%byte]
                           -> c ≠ x).
  { intros x Hx ->. apply list_elem_of_In in Hx.
    assert (existsb (Byte.eqb x) ["."%byte; "e"%byte; "E"%byte; "+"%byte; "-"%byte; "_"%byte]
            = true) as Hex; [|congruence].
    apply existsb_exists. exists x. split; [done|]. by apply Byte.byte_dec_lb. }
  split; [|split; [done|]].
  - intros [Hd|Hin]; [congruence|].
    apply (Hnot c); [|done].
    repeat (apply elem_of_cons in Hin as [->|Hin];
            [repeat (apply list_elem_of_here || apply list_elem_of_further)|]).
    by apply elem_of_nil in Hin.
  - apply Hnot. repeat (apply list_elem_of_here || apply list_elem_of_further).
Qed.

Lemma numeric_not_a_number (raw : list byte) :
  Forall (λ c, Py.is_space c = true) raw \/ (exists c, c ∈ raw /\ number_byte c = false) ->
  numeric (Py.bytes_strip raw) = VInt 0.
Proof.
  intros [Hblank|(c & Hin & Hc)]; [by apply numeric_blank|].
  destruct (number_byte_false c Hc) as (Hdec & Hspace & Hus).
  by apply (numeric_garbage raw c).
Qed.

Lemma slice_with_field_in (r : list byte) (off len : nat) (payload : list byte) :
  (off + len <= length r)%nat -> length payload = len ->
  Py.slice (with_field r off len payload) off (off + len) = payload.
Proof.
  intros Hr Hp. unfold Py.slice, with_field.
  rewrite drop_app_length' by (rewrite length_take; lia).
  replace (off + len - off)%nat with len by lia.
  by rewrite take_app_length'.
Qed.

(** Some values of [float]: a trailing point, a text too large for a
    double, a text that no double is equal to, and a negative zero. *)
Example float_values :
  Py.float (bytes_of "1.") = Py.float (bytes_of "1.0")
  /\ Py.float (bytes_of "1.0") = Some (SpecFloat.S754_finite false 4503599627370496 (-52))
  /\ Py.float (bytes_of "1.0e999") = Some (SpecFloat.S754_infinity false)
  /\ Py.float (bytes_of "0.1") = Some (SpecFloat.S754_finite false 7205759403792794 (-56))
  /\ Py.float (bytes_of "-0.0") = Some (SpecFloat.S754_zero true)
  /\ Py.float (bytes_of " 6.68 ") = Some (SpecFloat.S754_finite false 7521011377708728 (-50))
  /\ Py.float (bytes_of "6.6.8") = None.
Proof. repeat split; vm_compute; reflexivity. Qed.

(** C5. In a record not marked deleted, a Numeric ([N]) field whose bytes
    contain a [.] is parsed as a floating-point value, otherwise as an
    integer; when parsing fails the field's value is 0 and nothing is
    raised.  So the decimal text of an integer between blanks gives that
    integer; digits around a decimal point, with or without a minus sign,
    give the double that the number written rounds to ([Py.binary64]); a
    blank field, and a field holding a byte that no number is written
    with, give 0.  Whatever
    bytes the field holds, malformed or not, the rows of the other records
    and the other entries of this record's row are the same. *)
Theorem read_dbf_numeric_field :
  forall (rd : filesystem -> string -> outcome (list dict))
         (fs : filesystem) (filename : string) (t : table)
         (before after : list (list byte)) (r : list byte) (i : nat) (f : field),
    rd ∈ readers ->
    well_formed t ->
    fs !! filename = Some (table_bytes t) ->
    recs t = before ++ r :: after ->
    deleted r = false ->
    table_fields t !! i = Some f ->
    field_type f = "N"%byte ->
    let fields := table_fields t in
    let off := (1 + sum_list (field_len <$> take i fields))%nat in
    let raw := Py.slice r off (off + field_len f) in
    let value := Py.bytes_strip raw in
    let rows := fun rs => row fields <$> filter (λ r, ¬ deleted r) rs in
    let blank := Forall (λ c, Py.is_space c = true) in
    let digits := Forall (λ c, Py.is_digit c = true) in
    exists d,
      rd fs filename = Returns (rows before ++ d :: rows after)
      /\ d !! name f
         = Some (if Py.contains "." value
                 then match Py.float value with Some x => VFloat x | None => VInt 0 end
                 else match Py.int value with Some z => VInt z | None => VInt 0 end)
      /\ (forall (z : Z) (lead trail : list byte),
            blank lead -> blank trail ->
            raw = lead ++ repr_int z ++ trail ->
            d !! name f = Some (VInt z))
      /\ (forall (negative : bool) (ds1 ds2 lead trail : list byte),
            blank lead -> blank trail -> digits ds1 -> digits ds2 ->
            ds1 ++ ds2 ≠ [] ->
            raw = lead ++ ((if negative then ["-"%byte] else [])
                           ++ ds1 ++ "."%byte :: ds2) ++ trail ->
            d !! name f
            = Some (VFloat (Py.binary64 negative (Py.digits_value (ds1 ++ ds2))
                              (- Z.of_nat (length ds2)))))
      /\ (blank raw \/ (exists c, c ∈ raw /\ number_byte c = false) ->
          d !! name f = Some (VInt 0))
      /\ forall (payload : list byte) (fs' : filesystem),
           length payload = field_len f ->
           fs' !! filename
           = Some (table_bytes
                     (with_recs t (before ++ with_field r off (field_len f) payload
                                          :: after))) ->
           exists d',
             rd fs' filename = Returns (rows before ++ d' :: rows after)
             /\ (forall k, k ≠ name f -> d' !! k = d !! k)
             /\ (blank payload \/ (exists c, c ∈ payload /\ number_byte c = false) ->
                 d' !! name f = Some (VInt 0)).
Proof.
  intros rd fs filename t before after r i f Hrd Hwf Hfs Hrecs Hlive Hi Hty.
  intros fields off raw value rows blank digits. subst value rows raw off fields.
  fold (field_offset (table_fields t) i).
  set (fields := table_fields t) in *. set (off := field_offset fields i).
  set (raw := Py.slice r off (off + field_len f)).
  rewrite (readers_same rd Hrd).
  pose proof (wf_names t Hwf) as Hnd.
  pose proof (wf_record_length t before after r Hwf Hrecs) as Hr.
  assert (Hvalue : row fields r !! name f = Some (numeric (Py.bytes_strip raw))).
  { rewrite (row_lookup _ _ i f) by done. unfold field_value. by rewrite Hty. }
  exists (row fields r). repeat apply conj.
  - by apply read_dbf_row_at.
  - exact Hvalue.
  - intros z lead trail Hlead Htrail Hraw. rewrite Hvalue, Hraw.
    destruct (int_repr_int z lead trail Hlead Htrail) as (Hstrip & Hpoint & Hint).
    unfold numeric. by rewrite Hstrip, Hpoint, Hint.
  - intros negative ds1 ds2 lead trail Hlead Htrail Hds1 Hds2 Hne Hraw.
    rewrite Hvalue, Hraw.
    destruct (float_decimal_text negative ds1 ds2 lead trail Hds1 Hds2 Hne Hlead Htrail)
      as (Hstrip & Hpoint & Hfloat).
    unfold numeric. by rewrite Hstrip, Hpoint, Hfloat.
  - intros Hbad. rewrite Hvalue. f_equal. by apply numeric_not_a_number.
  - intros payload fs' Hp Hfs'.
    set (r' := with_field r off (field_len f) payload) in *.
    assert (Hin : (off + field_len f <= length r)%nat).
    { unfold off. rewrite <- (field_offset_next _ _ _ Hi), Hr.
      apply field_offset_end. }
    assert (Hr' : length r' = length r) by (by apply length_with_field).
    assert (Hwf' : well_formed (with_recs t (before ++ r' :: after))).
    { apply wf_with_recs; [done|by rewrite Hrecs, !length_app|].
      pose proof (wf_recs t Hwf) as Hall.
      rewrite Hrecs, Forall_app, Forall_cons in Hall.
      destruct Hall as (Hb & Hrl & Ha).
      rewrite Forall_app, Forall_cons. by rewrite Hr'. }
    exists (row fields r'). repeat apply conj.
    + apply (read_dbf_row_at _ _ (with_recs t (before ++ r' :: after))); try done.
      unfold r'. rewrite deleted_with_field; [done|unfold off, field_offset; lia|lia].
    + intros k Hk. by apply row_with_field_other.
    + intros Hbad. rewrite (row_lookup _ _ i f) by done.
      fold off. unfold r'. rewrite slice_with_field_in by done.
      unfold field_value. rewrite Hty. cbn [Byte.eqb]. f_equal.
      by apply numeric_not_a_number.
Qed.

Lemma read_dbf_numeric_field_witness :
  let fields := table_fields ta_table in
  let rows := fun rs => row fields <$> filter (λ r, ¬ deleted r) rs in
  let far_north := bytes_of " 001Far North     6.68" in
  let others := [bytes_of " 999Area Outside     0"; bytes_of "*002Whangarei     2.71";
                 bytes_of " 500Nowhere City    12"] in
  exists d,
    create_simplified_ta_geojson.read_dbf
      {[ "ta.dbf" := table_bytes ta_table ]} "ta.dbf"
    = Returns (rows [] ++ d :: rows others)
    /\ d !! text "LAND_AREA_"
       = Some (VFloat (SpecFloat.S754_finite false 7521011377708728 (-50)))
    /\ exists d',
         create_simplified_ta_geojson.read_dbf
           {[ "ta.dbf" := table_bytes
                (with_recs ta_table
                   ([] ++ with_field far_north 16 6 (bytes_of " 6,68 ") :: others)) ]}
           "ta.dbf"
         = Returns (rows [] ++ d' :: rows others)
         /\ (forall k, k ≠ text "LAND_AREA_" -> d' !! k = d !! k)
         /\ d' !! text "LAND_AREA_" = Some (VInt 0).
Proof.
  intros fields rows far_north others.
  destruct (read_dbf_numeric_field _ {[ "ta.dbf" := table_bytes ta_table ]}
              "ta.dbf" ta_table [] others far_north 2
              (Field (text "LAND_AREA_") "N" 6)
              simplified_reader ta_table_wf (lookup_singleton_eq _ _)
              eq_refl eq_refl eq_refl eq_refl)
    as (d & Hout & _ & _ & Hfloat & _ & Hother).
  exists d. split; [exact Hout|]. split.
  - apply (Hfloat false (bytes_of "6") (bytes_of "68") (bytes_of "  ") []).
    + repeat constructor.
    + constructor.
    + repeat constructor.
    + repeat constructor.
    + discriminate.
    + reflexivity.
  - destruct (Hother (bytes_of " 6,68 ") {[ "ta.dbf" := table_bytes
                (with_recs ta_table
                   ([] ++ with_field far_north 16 6 (bytes_of " 6,68 ") :: others)) ]}
                eq_refl (lookup_singleton_eq _ _)) as (d' & Hout' & Hsame & Hzero).
    exists d'. split; [exact Hout'|]. split; [exact Hsame|].
    apply Hzero. right. exists ","%byte. split; [|reflexivity].
    do 2 apply list_elem_of_further. apply list_elem_of_here.
Defined.
